(** * Caching and rate-limiting proxy in front of the Merriam-Webster API

    A shallow embedding of the endpoint package (rate-limiter.ts, cache.ts,
    handlers/shared.ts, handlers/define.ts, handlers/synonyms.ts,
    handlers/admin.ts, auth.ts, cors.ts, worker.ts) and of the client
    library as far as the endpoint uses it (its error classes, guards.ts and
    the request path of client.ts), followed by the properties of the quota
    counter, the cache policy and the request pipeline.

    Conventions of the embedding.
    - JavaScript numbers that hold counts, limits and instants are integers
      within the exact range of a double; they are modelled as [Z].
    - An instant ([new Date()], [Date.now()]) is its number of milliseconds
      since the epoch.  An ISO timestamp string is represented by the instant
      it renders, and the [YYYY-MM-DD] prefix of an ISO timestamp by the
      number of the UTC day it names (the rendering is injective on both).
    - Every call of the Durable Object and every request of the worker reads
      the clock once: the instant [now] is an argument.  The one reading
      that is compared with an instant computed by the Durable Object,
      [Date.now()] in [rateLimitedResponse], is made by the worker after the
      subrequest has returned; it is an argument of its own, [dateNow].
    - Strings are sequences of code units.  The case mappings of the
      embedding are those of words of ASCII code units, on which
      [toLowerCase] changes the letters [A-Z] and [toUpperCase] the letters
      [a-z] and nothing else; what depends on a case mapping is stated for
      such words, or through the equality of lower-case forms.  The names
      of HTTP headers are ASCII, and are compared byte-lower-cased. *)

From Stdlib Require Import ZArith String Ascii List Bool Lia.
From stdpp Require Import base option strings pretty gmap.

Local Open Scope string_scope.
Local Open Scope Z_scope.

(** ** JavaScript string primitives used by the endpoint *)

Module Js.

Definition isUpperAscii (c : ascii) : bool :=
  let n := nat_of_ascii c in (65 <=? n)%nat && (n <=? 90)%nat.

Definition isLowerAscii (c : ascii) : bool :=
  let n := nat_of_ascii c in (97 <=? n)%nat && (n <=? 122)%nat.

Definition charToLower (c : ascii) : ascii :=
  if isUpperAscii c then ascii_of_nat (nat_of_ascii c + 32) else c.

Definition charToUpper (c : ascii) : ascii :=
  if isLowerAscii c then ascii_of_nat (nat_of_ascii c - 32) else c.

(** [String.prototype.toLowerCase] on a word of ASCII code units: the
    letters [A-Z] become [a-z], every other code unit stays, and the length
    is kept.  (On other words the built-in also maps the letters outside
    ASCII, and can change the length; they are outside the embedding.) *)
Fixpoint toLowerCase (s : string) : string :=
  match s with
  | EmptyString => EmptyString
  | String c r => String (charToLower c) (toLowerCase r)
  end.

(** [String.prototype.toUpperCase] on a word of ASCII code units: the
    letters [a-z] become [A-Z].  (On other words the built-in can map a
    letter to several, so that lower-casing the upper-case form need not
    give the lower-case form; they are outside the embedding.) *)
Fixpoint toUpperCase (s : string) : string :=
  match s with
  | EmptyString => EmptyString
  | String c r => String (charToUpper c) (toUpperCase r)
  end.

(** [s.startsWith(p)]. *)
Definition startsWith (s p : string) : bool := String.prefix p s.

(** [s.slice(n)] for [0 <= n]. *)
Fixpoint slice (n : nat) (s : string) : string :=
  match n, s with
  | O, _ => s
  | S n', EmptyString => EmptyString
  | S n', String _ r => slice n' r
  end.

(** [s.replace(pat, "")] with a string pattern: the first occurrence of
    [pat] is removed. *)
Fixpoint removeFirst (pat s : string) : string :=
  if String.prefix pat s then slice (String.length pat) s
  else match s with
       | EmptyString => EmptyString
       | String c r => String c (removeFirst pat r)
       end.

(** The decimal digits of [n], the last [width] of them, padded with
    zeros. *)
Fixpoint digits (width : nat) (n : Z) : string :=
  match width with
  | O => EmptyString
  | S width' =>
      String.append (digits width' (n / 10))
        (String (ascii_of_nat (48 + Z.to_nat (n mod 10))) EmptyString)
  end.

(** The year, month and day of the proleptic Gregorian calendar for a day
    number counted from 1970-01-01. *)
Definition civilFromDays (days : Z) : Z * Z * Z :=
  let z := days + 719468 in
  let era := z / 146097 in
  let doe := z mod 146097 in
  let yoe := (doe - doe / 1460 + doe / 36524 - doe / 146096) / 365 in
  let doy := doe - (365 * yoe + yoe / 4 - yoe / 100) in
  let mp := (5 * doy + 2) / 153 in
  let day := doy - (153 * mp + 2) / 5 + 1 in
  let month := if mp <? 10 then mp + 3 else mp - 9 in
  let year := yoe + era * 400 + (if month <=? 2 then 1 else 0) in
  (year, month, day).

(** [new Date(t).toISOString()] for an instant within the range of [Date]:
    [YYYY-MM-DDTHH:mm:ss.sssZ], with a signed year of six digits outside
    the years 0 to 9999. *)
Definition toISOString (t : Z) : string :=
  let '(year, month, day) := civilFromDays (t / 86400000) in
  let ms := t mod 86400000 in
  let yyyy :=
    if (0 <=? year) && (year <=? 9999) then digits 4 year
    else String.append (if year <? 0 then "-" else "+") (digits 6 (Z.abs year)) in
  yyyy ++ "-" ++ digits 2 month ++ "-" ++ digits 2 day
       ++ "T" ++ digits 2 (ms / 3600000)
       ++ ":" ++ digits 2 (ms / 60000 mod 60)
       ++ ":" ++ digits 2 (ms / 1000 mod 60)
       ++ "." ++ digits 3 (ms mod 1000) ++ "Z".

End Js.

(** ** The lookup result of the client library *)

Module Lib.

(** [{found: true, entries} | {found: false, suggestions}]; entries are
    opaque to the endpoint. *)
Inductive LookupResult :=
| Entries (entries : list string)
| Suggestions (suggestions : list string).

(** [result.found] *)
Definition found (r : LookupResult) : bool :=
  match r with Entries _ => true | Suggestions _ => false end.

End Lib.

(** ** types.ts *)

Module Types.

Record CachedResponse := {
  data : Lib.LookupResult;
  cachedAt : Z;
  found : bool
}.

Record RateLimitStatus := {
  allowed : bool;
  remaining : Z;
  limit : Z;
  resetsAt : Z
}.

End Types.

(** ** rate-limiter.ts: the Durable Object holding the daily counter *)

Module RateLimiter.

Definition msPerDay : Z := 86400000.

(** The record stored under the key ["counter"]. *)
Record Counter := { date : Z; count : Z }.

(** The object: its storage (the value under ["counter"], if any) and the
    limit read from the configuration by the constructor. *)
Record t := { storage : option Counter; limit : Z }.

(** [new Date().toISOString().split("T")[0]] *)
Definition getTodayUTC (now : Z) : Z := now / msPerDay.

(** Midnight of the next UTC day. *)
Definition getNextMidnightUTC (now : Z) : Z := (now / msPerDay + 1) * msPerDay.

(** The lines
    [let count = 0; if (stored && stored.date === today) count = stored.count]
    shared by both operations. *)
Definition countFor (today : Z) (stored : option Counter) : Z :=
  match stored with
  | Some s => if Z.eqb (date s) today then count s else 0
  | None => 0
  end.

Definition checkAndIncrement (now : Z) (self : t) : Types.RateLimitStatus * t :=
  let today := getTodayUTC now in
  let stored := storage self in
  let count := countFor today stored in
  if count >=? limit self then
    ({| Types.allowed := false;
        Types.remaining := 0;
        Types.limit := limit self;
        Types.resetsAt := getNextMidnightUTC now |}, self)
  else
    ({| Types.allowed := true;
        Types.remaining := limit self - count - 1;
        Types.limit := limit self;
        Types.resetsAt := getNextMidnightUTC now |},
     {| storage := Some {| date := today; count := count + 1 |};
        limit := limit self |}).

Definition getStatus (now : Z) (self : t) : Types.RateLimitStatus * t :=
  let today := getTodayUTC now in
  let stored := storage self in
  let count := countFor today stored in
  ({| Types.allowed := true;
      Types.remaining := limit self - count;
      Types.limit := limit self;
      Types.resetsAt := getNextMidnightUTC now |}, self).

(** What the object answers to a subrequest. *)
Inductive Reply :=
| Json (s : Types.RateLimitStatus)
| NotFound404.

Definition fetch (pathname : string) (now : Z) (self : t) : Reply * t :=
  if String.eqb pathname "/check" then
    let (s, self') := checkAndIncrement now self in (Json s, self')
  else if String.eqb pathname "/status" then
    let (s, self') := getStatus now self in (Json s, self')
  else (NotFound404, self).

(** A run of [checkAndIncrement] calls, one per clock reading, in the order
    in which the object serves them, with the answers collected. *)
Fixpoint checks (nows : list Z) (self : t) : list Types.RateLimitStatus * t :=
  match nows with
  | nil => (nil, self)
  | now :: rest =>
      let (s, self') := checkAndIncrement now self in
      let (ss, self'') := checks rest self' in
      (s :: ss, self'')
  end.

(** The number of answers with [allowed = true]. *)
Definition allowedCount (ss : list Types.RateLimitStatus) : Z :=
  Z.of_nat (List.length (List.filter Types.allowed ss)).

End RateLimiter.

(** ** The error classes of the client library (lib/src/errors) *)

Module Errors.

(** The values that are [instanceof MerriamWebsterError]: the base class
    and its four subclasses. *)
Inductive MerriamWebsterError :=
| BaseError (message : string)
| TimeoutError (timeout : Z)
| NetworkError (message : string)
| InvalidKeyError (endpoint : string)
| APIError (status : Z) (statusText : string).

(** [error.name], as set by each constructor. *)
Definition name (e : MerriamWebsterError) : string :=
  match e with
  | BaseError _ => "MerriamWebsterError"
  | TimeoutError _ => "TimeoutError"
  | NetworkError _ => "NetworkError"
  | InvalidKeyError _ => "InvalidKeyError"
  | APIError _ _ => "APIError"
  end.

(** A thrown value: an upstream error or anything else. *)
Inductive Thrown :=
| MW (e : MerriamWebsterError)
| Other (description : string).

Inductive Result (A : Type) :=
| Ok (a : A)
| Throw (e : Thrown).

Arguments Ok {A} a.
Arguments Throw {A} e.

End Errors.

(** ** The key-value namespace

    A value is stored with an optional expiration instant; a key whose
    expiration has been reached is absent for every reader.  The stored
    string is [JSON.stringify] of a [CachedResponse] and is read back with
    [kv.get(key, "json")]; the model stores the record. *)

Module KV.

Record Entry := { value : Types.CachedResponse; expiration : option Z }.

Definition live (now : Z) (e : Entry) : bool :=
  match expiration e with
  | None => true
  | Some t => now <? t
  end.

Definition get (now : Z) (key : string) (kv : gmap string Entry)
  : option Types.CachedResponse :=
  match kv !! key with
  | Some e => if live now e then Some (value e) else None
  | None => None
  end.

(** [kv.put(key, value, options)]: [expirationTtl] is in seconds from now. *)
Definition put (now : Z) (key : string) (v : Types.CachedResponse)
    (expirationTtl : option Z) (kv : gmap string Entry) : gmap string Entry :=
  <[ key := {| value := v;
               expiration := (fun ttl => now + ttl * 1000) <$> expirationTtl |} ]> kv.

Definition delete (key : string) (kv : gmap string Entry) : gmap string Entry :=
  base.delete key kv.

End KV.

(** ** cache.ts *)

Module Cache.

Inductive LookupType := define | synonyms.

Definition typeName (type : LookupType) : string :=
  match type with define => "define" | synonyms => "synonyms" end.

Definition NOT_FOUND_TTL : Z := 60 * 60 * 24.

Definition getCacheKey (type : LookupType) (word : string) : string :=
  String.append (typeName type) (String.append "|" (Js.toLowerCase word)).

Definition getCached (now : Z) (kv : gmap string KV.Entry)
    (type : LookupType) (word : string) : option Types.CachedResponse :=
  let key := getCacheKey type word in
  KV.get now key kv.

Definition setCache (now : Z) (kv : gmap string KV.Entry)
    (type : LookupType) (word : string) (data : Lib.LookupResult)
    (found : bool) : gmap string KV.Entry :=
  let key := getCacheKey type word in
  let value := {| Types.data := data;
                  Types.cachedAt := now;
                  Types.found := found |} in
  let options := if found then None else Some NOT_FOUND_TTL in
  KV.put now key value options kv.

Definition deleteCache (kv : gmap string KV.Entry)
    (type : LookupType) (word : string) : gmap string KV.Entry :=
  let key := getCacheKey type word in
  KV.delete key kv.

(** [(await kv.getWithMetadata(key)).value !== null] *)
Definition hasCache (now : Z) (kv : gmap string KV.Entry)
    (type : LookupType) (word : string) : bool :=
  let key := getCacheKey type word in
  match KV.get now key kv with
  | Some _ => true
  | None => false
  end.

End Cache.

(** ** Requests, responses and the effects of a handler *)

Module Http.

Record Request := {
  method : string;
  pathname : string;
  authorization : option string;
  origin : option string
}.

(** The [rateLimit] member of the envelopes. *)
Record RateLimit := { remaining : Z; limit : Z; resetsAt : Z }.

(** The JSON bodies the worker produces. *)
Inductive Body :=
| Success (data : Lib.LookupResult) (cached : bool) (rateLimit : RateLimit)
| Failure (code message : string) (rateLimit : option RateLimit)
| StatusData (data : Types.RateLimitStatus)
| Deleted (type word key : string)
| Health (timestamp : Z)
| NoBody.

(** [headers] lists the headers a handler sets explicitly. *)
Record Response := {
  status : Z;
  body : Body;
  headers : list (string * string)
}.

(** Byte-lower-casing of a header name: each byte from [A] to [Z] is
    raised by 32. *)
Fixpoint byteLowercase (name : string) : string :=
  match name with
  | EmptyString => EmptyString
  | String c r => String (Js.charToLower c) (byteLowercase r)
  end.

(** Two names of the same header: [Headers] ignores the case of a name. *)
Definition sameName (a b : string) : bool :=
  String.eqb (byteLowercase a) (byteLowercase b).

(** [headers.set(key, value)]: the value replaces every value held under
    the name, whatever the case in which it was given. *)
Definition setHeader (kv : string * string) (hs : list (string * string))
  : list (string * string) :=
  List.filter (fun h => negb (sameName (fst h) (fst kv))) hs ++ [kv].

(** [headers.get(name)]: the values held under the name, whatever its
    case, in the order in which they were given and joined by [", "]. *)
Definition getHeader (name : string) (hs : list (string * string)) : option string :=
  match List.map snd (List.filter (fun h => sameName (fst h) name) hs) with
  | [] => None
  | value :: values =>
      Some (List.fold_left (fun joined v => String.append joined (String.append ", " v))
              values value)
  end.

End Http.

Module Runtime.

Import Errors.

(** What a request can change: the cache namespace, the Durable Object,
    and the log of the pathnames fetched from the Durable Object (oldest
    first). *)
Record World := {
  CACHE : gmap string KV.Entry;
  RATE_LIMITER : RateLimiter.t;
  subrequests : list string
}.

(** An asynchronous computation: it may change the world and either
    returns or throws; what it changed before throwing stays changed. *)
Definition M (A : Type) : Type := World -> Result A * World.

Definition ret {A} (a : A) : M A := fun w => (Ok a, w).

Definition throw {A} (e : Thrown) : M A := fun w => (Throw e, w).

Definition bind {A B} (m : M A) (k : A -> M B) : M B :=
  fun w =>
    match m w with
    | (Ok a, w') => k a w'
    | (Throw e, w') => (Throw e, w')
    end.

Definition tryCatch {A} (body : M A) (handler : Thrown -> M A) : M A :=
  fun w =>
    match body w with
    | (Ok a, w') => (Ok a, w')
    | (Throw e, w') => handler e w'
    end.

Definition lift {A} (r : Result A) : M A := fun w => (r, w).

Definition readCache {A} (f : gmap string KV.Entry -> A) : M A :=
  fun w => (Ok (f (CACHE w)), w).

Definition writeCache (f : gmap string KV.Entry -> gmap string KV.Entry) : M unit :=
  fun w => (Ok tt, {| CACHE := f (CACHE w);
                      RATE_LIMITER := RATE_LIMITER w;
                      subrequests := subrequests w |}).

(** The world after one subrequest to the Durable Object. *)
Definition afterFetch (pathname : string) (rl : RateLimiter.t) (w : World) : World :=
  {| CACHE := CACHE w;
     RATE_LIMITER := rl;
     subrequests := subrequests w ++ [pathname] |}.

(** [stub.fetch(new Request("http://do" + pathname))] *)
Definition stubFetch (now : Z) (pathname : string) : M RateLimiter.Reply :=
  fun w =>
    let (reply, rl) := RateLimiter.fetch pathname now (RATE_LIMITER w) in
    (Ok reply, afterFetch pathname rl w).

(** [response.json()] on a reply of the Durable Object. *)
Definition json (reply : RateLimiter.Reply) : M Types.RateLimitStatus :=
  match reply with
  | RateLimiter.Json s => ret s
  | RateLimiter.NotFound404 => throw (Other "SyntaxError")
  end.

End Runtime.

Declare Scope js_scope.
Delimit Scope js_scope with js.
Notation "'let*' x ':=' m 'in' k" := (Runtime.bind m (fun x => k))
  (at level 10, x name, m at level 100, k at level 200) : js_scope.

(** ** The worker: handlers/shared.ts, handlers/define.ts,
       handlers/synonyms.ts, handlers/admin.ts, auth.ts and worker.ts *)

Module Endpoint.

Import Errors Runtime Http.
Local Open Scope js_scope.

Record Env := { WORKER_API_KEY : string; ADMIN_API_KEY : string }.

Section Worker.

(** The global function [decodeURIComponent], which throws on a
    malformed escape. *)
Variable decodeURIComponent : string -> Result string.

(** The upstream client, [new MerriamWebster(...).define(word)] and
    [.synonyms(word)]: a remote call that returns a result or throws. *)
Variable mw_define : string -> Result Lib.LookupResult.
Variable mw_synonyms : string -> Result Lib.LookupResult.

(** [corsHeaders(env, origin)] of cors.ts. *)
Variable corsHeaders : option string -> list (string * string).

Variable env : Env.

(** What [Date.now()] reads in [rateLimitedResponse], the worker's clock
    after the subrequest to the Durable Object has returned. *)
Variable dateNow : Z.

(** The instant at which the request is served. *)
Variable now : Z.

(** *** handlers/shared.ts *)

Definition checkRateLimit : M Types.RateLimitStatus :=
  let* response := stubFetch now "/check" in
  json response.

Definition getRateLimitStatus : M Types.RateLimitStatus :=
  let* response := stubFetch now "/status" in
  json response.

Definition rateLimitOf (rateLimit : Types.RateLimitStatus) : RateLimit :=
  {| remaining := Types.remaining rateLimit;
     limit := Types.limit rateLimit;
     resetsAt := Types.resetsAt rateLimit |}.

(** [Math.ceil((new Date(rateLimit.resetsAt).getTime() - Date.now()) / 1000)] *)
Definition retryAfter (rateLimit : Types.RateLimitStatus) : Z :=
  (Types.resetsAt rateLimit - dateNow + 999) / 1000.

Definition rateLimitedResponse (rateLimit : Types.RateLimitStatus) : Response :=
  {| status := 429;
     body := Failure "RATE_LIMITED"
               "Daily API limit exceeded. Try again tomorrow."
               (Some {| remaining := 0;
                        limit := Types.limit rateLimit;
                        resetsAt := Types.resetsAt rateLimit |});
     headers := [ ("Retry-After", pretty (retryAfter rateLimit));
                  ("X-RateLimit-Limit", pretty (Types.limit rateLimit));
                  ("X-RateLimit-Remaining", "0");
                  ("X-RateLimit-Reset", Js.toISOString (Types.resetsAt rateLimit)) ] |}.

Definition handleMWError (error : Thrown) (rateLimit : Types.RateLimitStatus)
  : M Response :=
  match error with
  | MW e =>
      let status := if String.eqb (Errors.name e) "InvalidKeyError"
                    then 503 else 502 in
      ret {| status := status;
             body := Failure "UPSTREAM_ERROR"
                       "Dictionary service temporarily unavailable"
                       (Some (rateLimitOf rateLimit));
             headers := [] |}
  | _ => throw error
  end.

Definition invalidWord : Response :=
  {| status := 400;
     body := Failure "INVALID_WORD" "Word must be 1-100 characters" None;
     headers := [] |}.

(** [!word || word.length > 100] *)
Definition validateWord (word : string) : option Response :=
  if String.eqb word "" || (100 <? String.length word)%nat
  then Some invalidWord
  else None.

(** *** handlers/define.ts

    [ctx.waitUntil(setCache(...))] starts the write before the response
    is returned; the write is part of what the request does to the
    cache. *)

Definition handleDefine (request : Request) : M Response :=
  let* word := lift (decodeURIComponent
                       (Js.removeFirst "/define/" (pathname request))) in
  match validateWord word with
  | Some invalid => ret invalid
  | None =>
      let* cached := readCache (fun kv => Cache.getCached now kv Cache.define word) in
      match cached with
      | Some cached =>
          let* rateLimit := getRateLimitStatus in
          ret {| status := 200;
                 body := Success (Types.data cached) true (rateLimitOf rateLimit);
                 headers := [("X-Cache", "HIT")] |}
      | None =>
          let* rateLimit := checkRateLimit in
          if negb (Types.allowed rateLimit) then
            ret (rateLimitedResponse rateLimit)
          else
            tryCatch
              (let* result := lift (mw_define word) in
               let* _ := writeCache (fun kv =>
                           Cache.setCache now kv Cache.define word result
                             (Lib.found result)) in
               ret {| status := 200;
                      body := Success result false (rateLimitOf rateLimit);
                      headers := [("X-Cache", "MISS")] |})
              (fun error => handleMWError error rateLimit)
      end
  end.

(** *** handlers/synonyms.ts *)

Definition handleSynonyms (request : Request) : M Response :=
  let* word := lift (decodeURIComponent
                       (Js.removeFirst "/synonyms/" (pathname request))) in
  match validateWord word with
  | Some invalid => ret invalid
  | None =>
      let* cached := readCache (fun kv => Cache.getCached now kv Cache.synonyms word) in
      match cached with
      | Some cached =>
          let* rateLimit := getRateLimitStatus in
          ret {| status := 200;
                 body := Success (Types.data cached) true (rateLimitOf rateLimit);
                 headers := [("X-Cache", "HIT")] |}
      | None =>
          let* rateLimit := checkRateLimit in
          if negb (Types.allowed rateLimit) then
            ret (rateLimitedResponse rateLimit)
          else
            tryCatch
              (let* result := lift (mw_synonyms word) in
               let* _ := writeCache (fun kv =>
                           Cache.setCache now kv Cache.synonyms word result
                             (Lib.found result)) in
               ret {| status := 200;
                      body := Success result false (rateLimitOf rateLimit);
                      headers := [("X-Cache", "MISS")] |})
              (fun error => handleMWError error rateLimit)
      end
  end.

(** The two lookup handlers, by lookup type, with the path prefix each
    strips and the client method each calls. *)
Definition handleLookup (type : Cache.LookupType) : Request -> M Response :=
  match type with
  | Cache.define => handleDefine
  | Cache.synonyms => handleSynonyms
  end.

Definition lookupPrefix (type : Cache.LookupType) : string :=
  match type with
  | Cache.define => "/define/"
  | Cache.synonyms => "/synonyms/"
  end.

Definition mw_lookup (type : Cache.LookupType) : string -> Result Lib.LookupResult :=
  match type with
  | Cache.define => mw_define
  | Cache.synonyms => mw_synonyms
  end.

(** *** handlers/admin.ts *)

Definition isLineTerminator (c : ascii) : bool :=
  Ascii.eqb c "010"%char || Ascii.eqb c "013"%char.

Fixpoint hasLineTerminator (s : string) : bool :=
  match s with
  | EmptyString => false
  | String c r => isLineTerminator c || hasLineTerminator r
  end.

(** The capture of [(.+)$] after a matched prefix. *)
Definition captureRest (prefix s : string) : option string :=
  if Js.startsWith s prefix then
    let rest := Js.slice (String.length prefix) s in
    if String.eqb rest "" || hasLineTerminator rest then None else Some rest
  else None.

(** [pathname.match(/^\/cache\/(define|synonyms)\/(.+)$/)]: the dot matches
    every code unit but a line terminator. *)
Definition matchCachePath (pathname : string) : option (Cache.LookupType * string) :=
  match captureRest "/cache/define/" pathname with
  | Some rest => Some (Cache.define, rest)
  | None =>
      match captureRest "/cache/synonyms/" pathname with
      | Some rest => Some (Cache.synonyms, rest)
      | None => None
      end
  end.

Definition handleCacheDelete (request : Request) : M Response :=
  match matchCachePath (pathname request) with
  | None =>
      ret {| status := 400;
             body := Failure "INVALID_PATH"
                       "Path must be /cache/{define|synonyms}/{word}" None;
             headers := [] |}
  | Some (type, captured) =>
      let* word := lift (decodeURIComponent captured) in
      if String.eqb word "" || (100 <? String.length word)%nat then
        ret {| status := 400;
               body := Failure "INVALID_WORD" "Word must be 1-100 characters" None;
               headers := [] |}
      else
        let* exists_ := readCache (fun kv => Cache.hasCache now kv type word) in
        if negb exists_ then
          ret {| status := 404;
                 body := Failure "NOT_FOUND"
                           (String.append "No cached entry for "
                              (String.append (Cache.typeName type)
                                 (String.append ":" word)))
                           None;
                 headers := [] |}
        else
          let* _ := writeCache (fun kv => Cache.deleteCache kv type word) in
          ret {| status := 200;
                 body := Deleted (Cache.typeName type) word
                           (Cache.getCacheKey type word);
                 headers := [] |}
  end.

(** *** auth.ts *)

Definition extractBearerToken (request : Request) : option string :=
  match authorization request with
  | Some auth => if Js.startsWith auth "Bearer " then Some (Js.slice 7 auth) else None
  | None => None
  end.

Definition validateUserAuth (request : Request) : bool :=
  match extractBearerToken request with
  | Some token => String.eqb token (WORKER_API_KEY env)
  | None => false
  end.

Definition validateAdminAuth (request : Request) : bool :=
  match extractBearerToken request with
  | Some token => String.eqb token (ADMIN_API_KEY env)
  | None => false
  end.

(** *** cors.ts *)

Definition handlePreflight (request : Request) : Response :=
  {| status := 204; body := NoBody; headers := corsHeaders (origin request) |}.

Definition withCors (response : Response) (origin : option string) : Response :=
  {| status := status response;
     body := body response;
     headers := List.fold_left (fun hs h => setHeader h hs)
                  (corsHeaders origin) (headers response) |}.

(** *** worker.ts *)

Definition handleHealth : Response :=
  {| status := 200; body := Health now; headers := [] |}.

Definition handleRateLimitStatus : M Response :=
  let* response := stubFetch now "/status" in
  let* status := json response in
  ret {| status := 200; body := StatusData status; headers := [] |}.

Definition errorResponse (status : Z) (code message : string) : Response :=
  {| status := status; body := Failure code message None; headers := [] |}.

Definition unauthorizedResponse : Response :=
  errorResponse 401 "UNAUTHORIZED" "Invalid or missing API key".

Definition forbiddenResponse : Response :=
  errorResponse 403 "FORBIDDEN" "Admin access required".

Definition notFoundResponse : Response :=
  errorResponse 404 "NOT_FOUND" "Endpoint not found".

Definition internalErrorResponse : Response :=
  errorResponse 500 "INTERNAL_ERROR" "An unexpected error occurred".

Definition handleRequest (request : Request) : M Response :=
  let origin := origin request in
  if String.eqb (method request) "OPTIONS" then
    ret (handlePreflight request)
  else
    let path := pathname request in
    tryCatch
      (if String.eqb path "/health" then
         ret (withCors handleHealth origin)
       else if String.eqb path "/rate-limit/status" then
         if negb (validateUserAuth request) then
           ret (withCors unauthorizedResponse origin)
         else
           let* response := handleRateLimitStatus in
           ret (withCors response origin)
       else if Js.startsWith path "/define/" then
         if negb (validateUserAuth request) then
           ret (withCors unauthorizedResponse origin)
         else
           let* response := handleDefine request in
           ret (withCors response origin)
       else if Js.startsWith path "/synonyms/" then
         if negb (validateUserAuth request) then
           ret (withCors unauthorizedResponse origin)
         else
           let* response := handleSynonyms request in
           ret (withCors response origin)
       else if Js.startsWith path "/cache/" && String.eqb (method request) "DELETE" then
         if negb (validateAdminAuth request) then
           ret (withCors forbiddenResponse origin)
         else
           let* response := handleCacheDelete request in
           ret (withCors response origin)
       else
         ret (withCors notFoundResponse origin))
      (fun error => ret (withCors internalErrorResponse origin)).

End Worker.

End Endpoint.

(** ** Notions used to state the properties *)

Module Notions.

(** A word of ASCII code units. *)
Fixpoint isAscii (s : string) : bool :=
  match s with
  | EmptyString => true
  | String c r => (nat_of_ascii c <? 128)%nat && isAscii r
  end.

(** Two code units are the same letter in possibly different case, or
    the same code unit. *)
Definition sameUpToCase (a b : ascii) : bool :=
  Ascii.eqb a b
  || (Js.isUpperAscii a && Ascii.eqb b (ascii_of_nat (nat_of_ascii a + 32)))
  || (Js.isUpperAscii b && Ascii.eqb a (ascii_of_nat (nat_of_ascii b + 32))).

(** Two words differ at most in the case of their letters. *)
Fixpoint differOnlyInCase (s1 s2 : string) : bool :=
  match s1, s2 with
  | EmptyString, EmptyString => true
  | String a r1, String b r2 => sameUpToCase a b && differOnlyInCase r1 r2
  | _, _ => false
  end.

(** The upstream error envelope of [handleMWError]. *)
Definition upstreamErrorResponse (e : Errors.MerriamWebsterError)
    (rateLimit : Types.RateLimitStatus) : Http.Response :=
  {| Http.status := match e with Errors.InvalidKeyError _ => 503 | _ => 502 end;
     Http.body := Http.Failure "UPSTREAM_ERROR"
                    "Dictionary service temporarily unavailable"
                    (Some (Endpoint.rateLimitOf rateLimit));
     Http.headers := [] |}.

End Notions.

(** ** Concrete inputs used to exercise the properties *)

Module Sample.

Import Errors.

(** A decoder that is right on the paths used below: [%20] is a space. *)
Definition decode (s : string) : Result string :=
  if String.eqb s "%20word%20" then Ok " word " else Ok s.

Definition env : Endpoint.Env :=
  {| Endpoint.WORKER_API_KEY := "user-key"; Endpoint.ADMIN_API_KEY := "admin-key" |}.

Definition cors (origin : option string) : list (string * string) :=
  [("Access-Control-Allow-Origin", "*")].

Definition get (pathname : string) : Http.Request :=
  {| Http.method := "GET"; Http.pathname := pathname;
     Http.authorization := Some "Bearer user-key"; Http.origin := None |}.

Definition delete (pathname : string) : Http.Request :=
  {| Http.method := "DELETE"; Http.pathname := pathname;
     Http.authorization := Some "Bearer admin-key"; Http.origin := None |}.

Definition entry (found : bool) (expiration : option Z) : KV.Entry :=
  {| KV.value := {| Types.data := if found then Lib.Entries ["word:1"]
                                  else Lib.Suggestions ["ward"];
                    Types.cachedAt := 0;
                    Types.found := found |};
     KV.expiration := expiration |}.

(** A world with [n] lookups counted on day 0 and the given cache. *)
Definition world (kv : gmap string KV.Entry) (n limit : Z) : Runtime.World :=
  {| Runtime.CACHE := kv;
     Runtime.RATE_LIMITER :=
       {| RateLimiter.storage := Some {| RateLimiter.date := 0; RateLimiter.count := n |};
          RateLimiter.limit := limit |};
     Runtime.subrequests := [] |}.

Definition failing (e : Thrown) (word : string) : Result Lib.LookupResult := Throw e.

Definition finding (word : string) : Result Lib.LookupResult :=
  Ok (Lib.Entries [word]).

(** The worker serving one request at instant 5, its later clock reading
    being 6, with an upstream that finds every word. *)
Definition serve (request : Http.Request) (w : Runtime.World)
  : Result Http.Response * Runtime.World :=
  Endpoint.handleRequest decode finding finding cors env 6 5 request w.

(** The status and body of a response, and the count stored afterwards. *)
Definition outcome (r : Result Http.Response * Runtime.World)
  : option (Z * Http.Body) * option Z :=
  (match fst r with
   | Ok response => Some (Http.status response, Http.body response)
   | Throw _ => None
   end,
   RateLimiter.count <$> RateLimiter.storage (Runtime.RATE_LIMITER (snd r))).

End Sample.

(** ** cors.ts: the CORS headers

    [allowed] is [env.ALLOWED_ORIGINS], absent when the variable is not
    set. *)

Module Cors.

(** The ASCII white space that [String.prototype.trim] removes. *)
Definition isWhiteSpace (c : ascii) : bool :=
  let n := nat_of_ascii c in ((9 <=? n)%nat && (n <=? 13)%nat) || (n =? 32)%nat.

Fixpoint trimStart (s : string) : string :=
  match s with
  | EmptyString => EmptyString
  | String c r => if isWhiteSpace c then trimStart r else s
  end.

Fixpoint trimEnd (s : string) : string :=
  match s with
  | EmptyString => EmptyString
  | String c r =>
      match trimEnd r with
      | EmptyString => if isWhiteSpace c then EmptyString else String c EmptyString
      | r' => String c r'
      end
  end.

(** [s.trim()] *)
Definition trim (s : string) : string := trimEnd (trimStart s).

(** [s.split(sep)] for a separator of one code unit. *)
Fixpoint split (sep : ascii) (s : string) : list string :=
  match s with
  | EmptyString => [EmptyString]
  | String c r =>
      if Ascii.eqb c sep then EmptyString :: split sep r
      else match split sep r with
           | piece :: pieces => String c piece :: pieces
           | [] => [String c EmptyString]
           end
  end.

(** [allowedOrigins.split(",").map((o) => o.trim())] *)
Definition listedOrigins (allowedOrigins : string) : list string :=
  List.map trim (split "," allowedOrigins).

(** The value of [Access-Control-Allow-Origin]. *)
Definition allowOrigin (allowed origin : option string) : string :=
  let allowedOrigins :=
    match allowed with
    | Some a => if String.eqb a "" then "*" else a
    | None => "*"
    end in
  match origin with
  | Some o =>
      if negb (String.eqb allowedOrigins "*") && negb (String.eqb o "") then
        let origins := listedOrigins allowedOrigins in
        if List.existsb (String.eqb o) origins then o
        else List.hd EmptyString origins
      else "*"
  | None => "*"
  end.

Definition corsHeaders (allowed origin : option string) : list (string * string) :=
  [ ("Access-Control-Allow-Origin", allowOrigin allowed origin);
    ("Access-Control-Allow-Methods", "GET, DELETE, OPTIONS");
    ("Access-Control-Allow-Headers", "Content-Type, Authorization");
    ("Access-Control-Max-Age", "86400") ].

End Cors.

(** ** auth.ts: [validateAuth] *)

Module Auth.

Inductive AuthType := user | admin.

Inductive AuthResult :=
| Valid (type : AuthType)
| Invalid.

Definition validateAuth (env : Endpoint.Env) (request : Http.Request) : AuthResult :=
  match Endpoint.extractBearerToken request with
  | Some token =>
      if String.eqb token (Endpoint.ADMIN_API_KEY env) then Valid admin
      else if String.eqb token (Endpoint.WORKER_API_KEY env) then Valid user
      else Invalid
  | None => Invalid
  end.

End Auth.

(** ** guards.ts and client.ts of the client library *)

Module Client.

Import Errors.

(** A parsed JSON value; a number is kept as its literal. *)
#[warnings="-register-all"]
Inductive Json :=
| JNull
| JBool (b : bool)
| JNumber (literal : string)
| JString (s : string)
| JArray (items : list Json)
| JObject (members : list (string * Json)).

(** [typeof v === 'object' && v !== null && 'meta' in v] *)
Definition hasMeta (v : Json) : bool :=
  match v with
  | JObject members => List.existsb (fun m => String.eqb (fst m) "meta") members
  | _ => false
  end.

Definition isDictionaryEntries (response : Json) : bool :=
  match response with
  | JArray (first :: _) => hasMeta first
  | _ => false
  end.

Definition isThesaurusEntries (response : Json) : bool :=
  match response with
  | JArray (first :: _) => hasMeta first
  | _ => false
  end.

Definition isSuggestions (response : Json) : bool :=
  match response with
  | JArray [] => true
  | JArray (JString _ :: _) => true
  | _ => false
  end.

(** A value that [fetch] or [response.json()] rejects with: whether it is
    an [Error], its [name] and its [message]. *)
Record Raised := { isError : bool; raisedName : string; message : string }.

Inductive ResponseBody :=
| Parsed (data : Json)
| Unparsed (reason : Raised).

(** What [await fetch(url, { signal })] comes to: a response, with the
    outcome of reading its body as JSON, or a rejection. *)
Inductive FetchOutcome :=
| Responded (status : Z) (statusText : string) (body : ResponseBody)
| Rejected (reason : Raised).

(** What a call of [request] meets: [encodeURIComponent(word)] throws a
    [URIError] (the word has a lone surrogate) before the [try] block is
    entered, or the URL is built and [fetch] comes to an outcome. *)
Inductive Call :=
| Unencodable
| Fetched (outcome : FetchOutcome).

Coercion Fetched : FetchOutcome >-> Call.

Inductive Endpoint := collegiate | thesaurus.

Record RequestOptions := { timeout : option Z; signal : bool }.

(** What the [try] block of [request] throws. *)
Inductive Caught :=
| CaughtOwn (e : MerriamWebsterError)
| CaughtRaised (r : Raised).

(** [response.ok] *)
Definition ok (status : Z) : bool := (200 <=? status) && (status <=? 299).

(** The [try] block of [request]. *)
Definition attempt (endpoint : Endpoint) (outcome : FetchOutcome) : Json + Caught :=
  match outcome with
  | Rejected reason => inr (CaughtRaised reason)
  | Responded status statusText body =>
      if status =? 403 then
        inr (CaughtOwn (InvalidKeyError
                          (match endpoint with
                           | collegiate => "dictionary"
                           | thesaurus => "thesaurus"
                           end)))
      else if negb (ok status) then
        inr (CaughtOwn (APIError status statusText))
      else
        match body with
        | Parsed data => inl data
        | Unparsed reason => inr (CaughtRaised reason)
        end
  end.

(** The [catch] block of [request]: what it throws for what it caught. *)
Definition recover (timeout : Z) (customSignal : bool) (error : Caught) : Thrown :=
  match error with
  | CaughtOwn (BaseError message) => MW (NetworkError message)
  | CaughtOwn e => MW e
  | CaughtRaised r =>
      if isError r && String.eqb (raisedName r) "AbortError" then
        if negb customSignal then MW (TimeoutError timeout)
        else Other (raisedName r)
      else if isError r then MW (NetworkError (message r))
      else MW (NetworkError "Unknown network error")
  end.

Definition DEFAULT_TIMEOUT : Z := 10000.

Record MerriamWebster := {
  dictionaryKey : option string;
  thesaurusKey : option string;
  defaultTimeout : Z
}.

(** [!key] for an optional string. *)
Definition missing (key : option string) : bool :=
  match key with
  | Some k => String.eqb k ""
  | None => true
  end.

(** [new MerriamWebster({ dictionaryKey, thesaurusKey, timeout })] *)
Definition create (dictionaryKey thesaurusKey : option string) (timeout : option Z)
  : Result MerriamWebster :=
  if missing dictionaryKey && missing thesaurusKey then
    Throw (Other "MerriamWebster: At least one of dictionaryKey or thesaurusKey is required")
  else
    Ok {| dictionaryKey := dictionaryKey;
          thesaurusKey := thesaurusKey;
          defaultTimeout := default DEFAULT_TIMEOUT timeout |}.

Definition request (self : MerriamWebster) (endpoint : Endpoint)
    (options : option RequestOptions) (call : Call) : Result Json :=
  let timeout := default (defaultTimeout self) (options ≫= timeout) in
  match call with
  | Unencodable => Throw (Other "URIError")
  | Fetched outcome =>
      let customSignal := match options with Some o => signal o | None => false end in
      match attempt endpoint outcome with
      | inl data => Ok data
      | inr error => Throw (recover timeout customSignal error)
      end
  end.

(** [{ found: true, entries }] or [{ found: false, suggestions }]. *)
Inductive LookupResult :=
| FoundResult (entries : Json)
| NotFoundResult (suggestions : Json).

Definition define (self : MerriamWebster) (options : option RequestOptions)
    (call : Call) : Result LookupResult :=
  if missing (dictionaryKey self) then
    Throw (Other "MerriamWebster: dictionaryKey is required for define()")
  else
    match request self collegiate options call with
    | Ok response =>
        Ok (if isDictionaryEntries response then FoundResult response
            else NotFoundResult response)
    | Throw e => Throw e
    end.

Definition synonyms (self : MerriamWebster) (options : option RequestOptions)
    (call : Call) : Result LookupResult :=
  if missing (thesaurusKey self) then
    Throw (Other "MerriamWebster: thesaurusKey is required for synonyms()")
  else
    match request self thesaurus options call with
    | Ok response =>
        Ok (if isThesaurusEntries response then FoundResult response
            else NotFoundResult response)
    | Throw e => Throw e
    end.

(** The upstream call of [handleDefine] and of [handleSynonyms]: a client
    made with the one key of the handler, then the lookup without options. *)
Definition defineWith (MW_DICTIONARY_KEY : option string) (call : Call)
  : Result LookupResult :=
  match create MW_DICTIONARY_KEY None None with
  | Ok mw => define mw None call
  | Throw e => Throw e
  end.

Definition synonymsWith (MW_THESAURUS_KEY : option string) (call : Call)
  : Result LookupResult :=
  match create None MW_THESAURUS_KEY None with
  | Ok mw => synonyms mw None call
  | Throw e => Throw e
  end.

End Client.

(** * Properties *)

(** ** The quota counter *)

Section QuotaCounter.

Import RateLimiter.

Lemma countFor_today (today n : Z) :
  countFor today (Some {| date := today; count := n |}) = n.
Proof. unfold countFor; simpl. now rewrite Z.eqb_refl. Qed.

Lemma countFor_stale (today : Z) (s : Counter) :
  date s <> today -> countFor today (Some s) = 0.
Proof.
  intros Hne. unfold countFor.
  destruct (Z.eqb_spec (date s) today); [contradiction | reflexivity].
Qed.

(** The two outcomes of a check, by the count that is in effect today. *)
Lemma checkAndIncrement_rejects (now : Z) (self : t) :
  limit self <= countFor (getTodayUTC now) (storage self) ->
  checkAndIncrement now self =
    ({| Types.allowed := false; Types.remaining := 0;
        Types.limit := limit self;
        Types.resetsAt := getNextMidnightUTC now |}, self).
Proof.
  intros Hfull. unfold checkAndIncrement.
  destruct (Z.geb_spec (countFor (getTodayUTC now) (storage self)) (limit self));
    [reflexivity | lia].
Qed.

Lemma checkAndIncrement_accepts (now : Z) (self : t) :
  countFor (getTodayUTC now) (storage self) < limit self ->
  checkAndIncrement now self =
    ({| Types.allowed := true;
        Types.remaining := limit self - countFor (getTodayUTC now) (storage self) - 1;
        Types.limit := limit self;
        Types.resetsAt := getNextMidnightUTC now |},
     {| storage := Some {| date := getTodayUTC now;
                           count := countFor (getTodayUTC now) (storage self) + 1 |};
        limit := limit self |}).
Proof.
  intros Hroom. unfold checkAndIncrement.
  destruct (Z.geb_spec (countFor (getTodayUTC now) (storage self)) (limit self));
    [lia | reflexivity].
Qed.

Lemma checkAndIncrement_allowed (now : Z) (self : t) :
  Types.allowed (fst (checkAndIncrement now self)) = true ->
  countFor (getTodayUTC now) (storage (snd (checkAndIncrement now self))) =
    countFor (getTodayUTC now) (storage self) + 1.
Proof.
  destruct (Z_lt_ge_dec (countFor (getTodayUTC now) (storage self)) (limit self))
    as [Hroom|Hfull].
  - rewrite checkAndIncrement_accepts by exact Hroom. intros _.
    cbn [snd storage]. apply countFor_today.
  - rewrite checkAndIncrement_rejects by lia. discriminate.
Qed.

Lemma checkAndIncrement_limit (now : Z) (self : t) :
  limit (snd (checkAndIncrement now self)) = limit self.
Proof.
  unfold checkAndIncrement.
  now destruct (countFor (getTodayUTC now) (storage self) >=? limit self).
Qed.

Lemma countFor_nonzero (today : Z) (stored : option Counter) :
  countFor today stored <> 0 ->
  stored = Some {| date := today; count := countFor today stored |}.
Proof.
  destruct stored as [[d n]|]; simpl; [|congruence].
  destruct (Z.eqb_spec d today) as [->|]; congruence.
Qed.

Lemma checks_cons (now : Z) (nows : list Z) (self : t) :
  checks (now :: nows) self =
    (fst (checkAndIncrement now self)
       :: fst (checks nows (snd (checkAndIncrement now self))),
     snd (checks nows (snd (checkAndIncrement now self)))).
Proof.
  simpl. destruct (checkAndIncrement now self) as [s self']; simpl.
  now destruct (checks nows self').
Qed.

Lemma checks_app (pre suf : list Z) (self : t) :
  checks (pre ++ suf)%list self =
    ((fst (checks pre self) ++ fst (checks suf (snd (checks pre self))))%list,
     snd (checks suf (snd (checks pre self)))).
Proof.
  revert self. induction pre as [|now pre IH]; intros self.
  - simpl. now destruct (checks suf self).
  - rewrite <- app_comm_cons, !checks_cons, IH. reflexivity.
Qed.

Lemma allowedCount_cons (s : Types.RateLimitStatus) (ss : list Types.RateLimitStatus) :
  allowedCount (s :: ss) = (if Types.allowed s then 1 else 0) + allowedCount ss.
Proof.
  unfold allowedCount. simpl. destruct (Types.allowed s); simpl; lia.
Qed.

(** A run of checks on one day, from a count within the limit: the number
    of accepted calls and the count left in storage. *)
Lemma checks_same_day (day : Z) (nows : list Z) :
  Forall (fun now => getTodayUTC now = day) nows ->
  forall self : t,
    0 <= countFor day (storage self) <= limit self ->
    allowedCount (fst (checks nows self)) =
      Z.min (Z.of_nat (length nows)) (limit self - countFor day (storage self))
    /\ countFor day (storage (snd (checks nows self))) =
         Z.min (countFor day (storage self) + Z.of_nat (length nows)) (limit self)
    /\ limit (snd (checks nows self)) = limit self.
Proof.
  induction 1 as [|now nows Hday _ IH]; intros self Hc.
  - simpl. unfold allowedCount; simpl. lia.
  - rewrite checks_cons. cbn [fst snd length].
    rewrite allowedCount_cons, Nat2Z.inj_succ.
    destruct (Z_lt_ge_dec (countFor day (storage self)) (limit self)) as [Hroom|Hfull].
    + rewrite checkAndIncrement_accepts by (rewrite Hday; exact Hroom).
      rewrite Hday. cbn [fst snd Types.allowed].
      set (self' := {| storage := _; limit := _ |}).
      assert (Hc' : countFor day (storage self') = countFor day (storage self) + 1)
        by apply countFor_today.
      destruct (IH self') as (IHa & IHc & IHl); rewrite ?Hc'; [simpl; lia|].
      rewrite IHa, IHc, IHl, Hc'. simpl limit. lia.
    + rewrite checkAndIncrement_rejects by (rewrite Hday; lia).
      cbn [fst snd Types.allowed].
      destruct (IH self Hc) as (IHa & IHc & IHl).
      rewrite IHa, IHc, IHl. lia.
Qed.

(** After at least one check on a day, the stored record is that day's. *)
Lemma checks_stored_today (day : Z) (nows : list Z) :
  Forall (fun now => getTodayUTC now = day) nows ->
  forall self : t,
    0 < limit self -> nows <> [] ->
    storage (snd (checks nows self)) =
      Some {| date := day;
              count := countFor day (storage (snd (checks nows self))) |}.
Proof.
  induction 1 as [|now nows Hday Hrest IH]; intros self Hpos Hne; [congruence|].
  rewrite checks_cons. cbn [snd].
  destruct nows as [|now' nows'].
  - simpl checks. cbn [snd].
    destruct (Z_lt_ge_dec (countFor day (storage self)) (limit self)) as [Hroom|Hfull].
    + rewrite checkAndIncrement_accepts by (rewrite Hday; exact Hroom).
      rewrite Hday. cbn [snd storage]. now rewrite countFor_today.
    + rewrite checkAndIncrement_rejects by (rewrite Hday; lia).
      cbn [snd]. apply countFor_nonzero. lia.
  - apply IH; [now rewrite checkAndIncrement_limit | congruence].
Qed.

(** Whatever the clock readings, a run of checks keeps a stored count that
    is within the limit within the limit; an empty storage is such a
    state. *)
Lemma checks_count_within_limit (nows : list Z) :
  forall self : t,
    0 < limit self ->
    (forall s, storage self = Some s -> 0 <= count s <= limit self) ->
    forall s, storage (snd (checks nows self)) = Some s -> 0 <= count s <= limit self.
Proof.
  induction nows as [|now nows IH]; intros self Hpos Hinv; [exact Hinv|].
  rewrite checks_cons. cbn [snd].
  assert (Hc : 0 <= countFor (getTodayUTC now) (storage self) <= limit self).
  { unfold countFor. destruct (storage self) as [s0|] eqn:Hs; [|lia].
    specialize (Hinv s0 eq_refl). destruct (date s0 =? getTodayUTC now); lia. }
  rewrite <- (checkAndIncrement_limit now self).
  apply IH; rewrite checkAndIncrement_limit; [exact Hpos|].
  destruct (Z_lt_ge_dec (countFor (getTodayUTC now) (storage self)) (limit self))
    as [Hroom|Hfull].
  - rewrite checkAndIncrement_accepts by exact Hroom. cbn [snd storage].
    intros s [= <-]. cbn [count]. lia.
  - rewrite checkAndIncrement_rejects by lia. exact Hinv.
Qed.

(** C1. At-most-limit: for a run of [checkAndIncrement] calls whose clock
    readings all fall on one UTC day, against a counter with a positive
    limit whose count for that day starts within the limit (at the start
    of a day it is 0): after every prefix of the run the count stored for
    the day is at most the limit, and after a non-empty prefix the stored
    record is the day's with a count at most the limit; the number of
    calls answered [allowed = true] is at most the limit, it is the
    minimum of the number of calls and the capacity left at the start,
    and so exactly [min (number of calls) limit] for the calls of a whole
    day. *)
Theorem checkAndIncrement_at_most_limit (day : Z) (nows : list Z) (self : t) :
  0 < limit self ->
  Forall (fun now => getTodayUTC now = day) nows ->
  0 <= countFor day (storage self) <= limit self ->
  (forall pre suf : list Z, nows = (pre ++ suf)%list ->
     countFor day (storage (snd (checks pre self))) <= limit self
     /\ (pre <> [] ->
         exists n, storage (snd (checks pre self)) = Some {| date := day; count := n |}
                   /\ n <= limit self))
  /\ allowedCount (fst (checks nows self)) <= limit self
  /\ allowedCount (fst (checks nows self)) =
       Z.min (Z.of_nat (length nows)) (limit self - countFor day (storage self))
  /\ (countFor day (storage self) = 0 ->
      allowedCount (fst (checks nows self)) =
        Z.min (Z.of_nat (length nows)) (limit self)).
Proof.
  intros Hpos Hday Hc.
  destruct (checks_same_day day nows Hday self Hc) as (Ha & _ & _).
  split; [|rewrite Ha; repeat split; try lia; intros ->; f_equal; lia].
  intros pre suf ->. apply Forall_app in Hday as [Hpre _].
  destruct (checks_same_day day pre Hpre self Hc) as (_ & Hcount & _).
  split; [lia|]. intros Hne.
  exists (countFor day (storage (snd (checks pre self)))).
  split; [now apply checks_stored_today | lia].
Qed.

Lemma checkAndIncrement_at_most_limit_witness :
  allowedCount (fst (checks [5; 6; 86399999] {| storage := None; limit := 2 |})) = 2.
Proof.
  destruct (checkAndIncrement_at_most_limit 0 [5; 6; 86399999]
              {| storage := None; limit := 2 |}) as (_ & _ & _ & H).
  - reflexivity.
  - repeat constructor.
  - simpl; lia.
  - apply H. reflexivity.
Defined.

(** C2. For every stored counter state: a [checkAndIncrement] call that
    answers [allowed = true] stores today's record with the count in
    effect raised by exactly 1; a call that answers [allowed = false]
    leaves the object as it was and answers [remaining = 0]. *)
Theorem checkAndIncrement_effect (now : Z) (self : t) :
  (Types.allowed (fst (checkAndIncrement now self)) = true ->
     storage (snd (checkAndIncrement now self)) =
       Some {| date := getTodayUTC now;
               count := countFor (getTodayUTC now) (storage self) + 1 |}
     /\ countFor (getTodayUTC now) (storage (snd (checkAndIncrement now self))) =
          countFor (getTodayUTC now) (storage self) + 1)
  /\ (Types.allowed (fst (checkAndIncrement now self)) = false ->
        snd (checkAndIncrement now self) = self
        /\ Types.remaining (fst (checkAndIncrement now self)) = 0).
Proof.
  destruct (Z_lt_ge_dec (countFor (getTodayUTC now) (storage self)) (limit self))
    as [Hroom|Hfull].
  - rewrite checkAndIncrement_accepts by exact Hroom. cbn [fst snd storage Types.allowed].
    split; [intros _ | discriminate].
    split; [reflexivity | apply countFor_today].
  - rewrite checkAndIncrement_rejects by lia. cbn [fst snd Types.allowed Types.remaining].
    split; [discriminate | intros _; split; reflexivity].
Qed.

Lemma checkAndIncrement_effect_witness :
  storage (snd (checkAndIncrement 86400000
                  {| storage := Some {| date := 1; count := 4 |}; limit := 10 |})) =
    Some {| date := 1; count := 5 |}
  /\ Types.remaining
       (fst (checkAndIncrement 86400000
               {| storage := Some {| date := 1; count := 10 |}; limit := 10 |})) = 0.
Proof.
  split.
  - apply (proj1 (checkAndIncrement_effect 86400000
                    {| storage := Some {| date := 1; count := 4 |}; limit := 10 |})).
    reflexivity.
  - apply (proj2 (checkAndIncrement_effect 86400000
                    {| storage := Some {| date := 1; count := 10 |}; limit := 10 |})).
    reflexivity.
Defined.

(** C3. Day rollover: for every stored record whose day differs from the
    current UTC day, whatever its count (the exhausted record of
    yesterday included), and a positive limit, a [checkAndIncrement] call
    answers [allowed = true] with [remaining = limit - 1] and stores
    today's record with count 1. *)
Theorem checkAndIncrement_day_rollover (now : Z) (self : t) (stored : Counter) :
  0 < limit self ->
  storage self = Some stored ->
  date stored <> getTodayUTC now ->
  checkAndIncrement now self =
    ({| Types.allowed := true;
        Types.remaining := limit self - 1;
        Types.limit := limit self;
        Types.resetsAt := getNextMidnightUTC now |},
     {| storage := Some {| date := getTodayUTC now; count := 1 |};
        limit := limit self |}).
Proof.
  intros Hpos Hstored Hstale.
  assert (Hzero : countFor (getTodayUTC now) (storage self) = 0)
    by (rewrite Hstored; now apply countFor_stale).
  rewrite checkAndIncrement_accepts by lia.
  rewrite Hzero. repeat f_equal; lia.
Qed.

Lemma checkAndIncrement_day_rollover_witness :
  checkAndIncrement (2 * 86400000 + 7)
    {| storage := Some {| date := 1; count := 1000 |}; limit := 1000 |} =
    ({| Types.allowed := true; Types.remaining := 999;
        Types.limit := 1000; Types.resetsAt := 3 * 86400000 |},
     {| storage := Some {| date := 2; count := 1 |}; limit := 1000 |}).
Proof.
  apply (checkAndIncrement_day_rollover (2 * 86400000 + 7)
           {| storage := Some {| date := 1; count := 1000 |}; limit := 1000 |}
           {| date := 1; count := 1000 |}).
  - reflexivity.
  - reflexivity.
  - discriminate.
Defined.

(** C5, as the claim states it, fails: with today's count equal to the
    limit, [getStatus] answers [allowed = true] although nothing
    remains. *)
Lemma getStatus_allowed_when_exhausted :
  let self := {| storage := Some {| date := 0; count := 1000 |}; limit := 1000 |} in
  let status := fst (getStatus 0 self) in
  countFor (getTodayUTC 0) (storage self) = limit self
  /\ Types.remaining status = 0
  /\ Types.allowed status = true
  /\ ~ (Types.allowed status = true <-> 0 < Types.remaining status).
Proof.
  cbv zeta. repeat split; try reflexivity.
  intros [H _]. specialize (H eq_refl). discriminate H.
Qed.

(** C5, amended. For every stored counter state, [getStatus] answers
    [allowed = true] whatever capacity remains, reports
    [remaining = limit - count] for the count in effect today, and leaves
    the object unchanged; whether capacity is available, that is whether a
    [checkAndIncrement] at the same instant would be allowed, is told by
    [remaining > 0], not by [allowed]. *)
Theorem getStatus_always_allowed (now : Z) (self : t) :
  Types.allowed (fst (getStatus now self)) = true
  /\ Types.remaining (fst (getStatus now self)) =
       limit self - countFor (getTodayUTC now) (storage self)
  /\ snd (getStatus now self) = self
  /\ fetch "/status" now self = (Json (fst (getStatus now self)), self)
  /\ (0 < Types.remaining (fst (getStatus now self)) <->
      Types.allowed (fst (checkAndIncrement now self)) = true).
Proof.
  split; [reflexivity|]. split; [reflexivity|]. split; [reflexivity|].
  split; [reflexivity|].
  cbn [getStatus fst Types.remaining].
  destruct (Z_lt_ge_dec (countFor (getTodayUTC now) (storage self)) (limit self))
    as [Hroom|Hfull].
  - rewrite checkAndIncrement_accepts by exact Hroom. cbn [fst Types.allowed].
    split; [reflexivity | lia].
  - rewrite checkAndIncrement_rejects by lia. cbn [fst Types.allowed].
    split; [lia | discriminate].
Qed.

End QuotaCounter.

(** ** The cache: fingerprints and retention *)

Section CachePolicy.

Import Cache Notions.

Lemma upper_plus_32_not_upper (c : ascii) :
  Js.isUpperAscii c = true ->
  Js.isUpperAscii (ascii_of_nat (nat_of_ascii c + 32)) = false.
Proof.
  destruct c as [[] [] [] [] [] [] [] []]; vm_compute; congruence.
Qed.

Lemma charToLower_upper (c : ascii) :
  Js.isUpperAscii c = true ->
  Js.charToLower (ascii_of_nat (nat_of_ascii c + 32)) = Js.charToLower c.
Proof.
  intros Hup. unfold Js.charToLower at 1.
  rewrite (upper_plus_32_not_upper c Hup).
  unfold Js.charToLower. now rewrite Hup.
Qed.

Lemma sameUpToCase_charToLower (a b : ascii) :
  sameUpToCase a b = true -> Js.charToLower a = Js.charToLower b.
Proof.
  unfold sameUpToCase. intros H.
  apply orb_true_iff in H as [H|H]; [apply orb_true_iff in H as [H|H]|].
  - apply Ascii.eqb_eq in H. now subst.
  - apply andb_true_iff in H as [Hup H]. apply Ascii.eqb_eq in H. subst b.
    symmetry. now apply charToLower_upper.
  - apply andb_true_iff in H as [Hup H]. apply Ascii.eqb_eq in H. subst a.
    now apply charToLower_upper.
Qed.

Lemma differOnlyInCase_toLowerCase (w1 w2 : string) :
  differOnlyInCase w1 w2 = true -> Js.toLowerCase w1 = Js.toLowerCase w2.
Proof.
  revert w2. induction w1 as [|a r1 IH]; intros [|b r2]; simpl; try discriminate.
  - reflexivity.
  - intros H. apply andb_true_iff in H as [Hab Hr].
    now rewrite (sameUpToCase_charToLower a b Hab), (IH r2 Hr).
Qed.

Lemma charToUpper_sameUpToCase (c : ascii) :
  sameUpToCase c (Js.charToUpper c) = true.
Proof.
  destruct c as [[] [] [] [] [] [] [] []]; vm_compute; reflexivity.
Qed.

Lemma toUpperCase_differOnlyInCase (w : string) :
  differOnlyInCase w (Js.toUpperCase w) = true.
Proof.
  induction w as [|c r IH]; simpl; [reflexivity|].
  now rewrite charToUpper_sameUpToCase, IH.
Qed.

(** C6, as the claim states it, fails on surrounding whitespace: the
    validation step accepts [" word "] and hands it on untrimmed, its
    fingerprint is not that of ["word"], and a lookup of [" word "] misses
    the entry cached for ["word"] and consumes quota. *)
Lemma untrimmed_word_misses_cache :
  let kv : gmap string KV.Entry := {[ "define|word" := Sample.entry true None ]} in
  let run := Endpoint.handleDefine Sample.decode Sample.finding 6 5
               (Sample.get "/define/%20word%20") (Sample.world kv 0 1000) in
  Endpoint.validateWord " word " = None
  /\ getCacheKey define " word " = "define| word "
  /\ getCacheKey define "word" = "define|word"
  /\ getCacheKey define " word " <> getCacheKey define "word"
  /\ getCached 5 kv define "word" = Some (KV.value (Sample.entry true None))
  /\ getCached 5 kv define " word " = None
  /\ Http.headers <$> (match fst run with Errors.Ok r => Some r | _ => None end)
       = Some [("X-Cache", "MISS")]
  /\ RateLimiter.storage (Runtime.RATE_LIMITER (snd run))
       = Some {| RateLimiter.date := 0; RateLimiter.count := 1 |}.
Proof.
  cbv zeta. repeat split; try (vm_compute; reflexivity).
  vm_compute. discriminate.
Qed.

(** C6, amended. For every lookup type and all words of ASCII code units,
    words that differ only in the case of their letters (a word and its
    upper-case form among them) resolve to the same cache fingerprint and
    read the same cache entry; the validation step accepts or rejects a
    word and never rewrites it. *)
Theorem getCacheKey_case_insensitive (type : LookupType) (w1 w2 : string) :
  isAscii w1 = true ->
  isAscii w2 = true ->
  differOnlyInCase w1 w2 = true ->
  getCacheKey type w1 = getCacheKey type w2
  /\ getCacheKey type (Js.toUpperCase w1) = getCacheKey type w1
  /\ (forall now kv, getCached now kv type w1 = getCached now kv type w2)
  /\ (forall now kv, hasCache now kv type w1 = hasCache now kv type w2).
Proof.
  intros _ _ Hcase.
  assert (Hkey : getCacheKey type w1 = getCacheKey type w2).
  { unfold getCacheKey. now rewrite (differOnlyInCase_toLowerCase w1 w2 Hcase). }
  split; [exact Hkey|]. split.
  - unfold getCacheKey.
    now rewrite <- (differOnlyInCase_toLowerCase _ _ (toUpperCase_differOnlyInCase w1)).
  - split; intros now kv; unfold getCached, hasCache; now rewrite Hkey.
Qed.

Lemma getCacheKey_case_insensitive_witness :
  getCacheKey synonyms "World" = getCacheKey synonyms "wORLD".
Proof.
  apply (getCacheKey_case_insensitive synonyms "World" "wORLD").
  - reflexivity.
  - reflexivity.
  - reflexivity.
Defined.

Lemma get_put_same (now t : Z) (key : string) (v : Types.CachedResponse)
    (ttl : option Z) (kv : gmap string KV.Entry) :
  KV.get t key (KV.put now key v ttl kv) =
    match ttl with
    | None => Some v
    | Some s => if t <? now + s * 1000 then Some v else None
    end.
Proof.
  unfold KV.get, KV.put. rewrite lookup_insert_eq.
  destruct ttl; reflexivity.
Qed.

Lemma get_delete_same (t : Z) (key : string) (kv : gmap string KV.Entry) :
  KV.get t key (KV.delete key kv) = None.
Proof. unfold KV.get, KV.delete. now rewrite lookup_delete_eq. Qed.

(** C7. For every cache write made at instant [now]: with [found = true]
    the entry is stored with no expiration and is read back at every
    instant, until it is deleted; with [found = false] the entry is stored
    with an expiration 86400 seconds after the write, is read back before
    that instant and is absent from it on. *)
Theorem setCache_retention (now : Z) (kv : gmap string KV.Entry)
    (type : LookupType) (word : string) (data : Lib.LookupResult) :
  let value (found : bool) :=
    {| Types.data := data; Types.cachedAt := now; Types.found := found |} in
  NOT_FOUND_TTL = 86400
  /\ setCache now kv type word data true !! getCacheKey type word =
       Some {| KV.value := value true; KV.expiration := None |}
  /\ (forall t, getCached t (setCache now kv type word data true) type word =
                Some (value true))
  /\ (forall t, getCached t (deleteCache (setCache now kv type word data true)
                               type word) type word = None)
  /\ setCache now kv type word data false !! getCacheKey type word =
       Some {| KV.value := value false;
               KV.expiration := Some (now + 86400 * 1000) |}
  /\ (forall t, getCached t (setCache now kv type word data false) type word =
                if t <? now + 86400 * 1000 then Some (value false) else None).
Proof.
  cbv zeta. unfold getCached, setCache, deleteCache.
  split; [reflexivity|].
  split; [unfold KV.put; now rewrite lookup_insert_eq|].
  split; [intros t; now rewrite get_put_same|].
  split; [intros t; apply get_delete_same|].
  split; [unfold KV.put; now rewrite lookup_insert_eq|].
  intros t. now rewrite get_put_same.
Qed.

End CachePolicy.

(** ** The request pipeline *)

Section Pipeline.

Import Errors Runtime Http Endpoint Notions.

Variable decodeURIComponent : string -> Result string.
Variable mw_define : string -> Result Lib.LookupResult.
Variable mw_synonyms : string -> Result Lib.LookupResult.
Variable corsHeaders : option string -> list (string * string).
Variable env : Env.
Variable dateNow : Z.
Variable now : Z.

Abbreviation handleLookup :=
  (handleLookup decodeURIComponent mw_define mw_synonyms dateNow now).
Abbreviation mw_lookup := (mw_lookup mw_define mw_synonyms).
Abbreviation handleRequest :=
  (handleRequest decodeURIComponent mw_define mw_synonyms corsHeaders env dateNow now).
Abbreviation handleCacheDelete := (handleCacheDelete decodeURIComponent now).

Lemma checkRateLimit_run (w : World) :
  checkRateLimit now w =
    (Ok (fst (RateLimiter.checkAndIncrement now (RATE_LIMITER w))),
     afterFetch "/check" (snd (RateLimiter.checkAndIncrement now (RATE_LIMITER w))) w).
Proof.
  unfold checkRateLimit, bind, stubFetch, RateLimiter.fetch. simpl String.eqb.
  now destruct (RateLimiter.checkAndIncrement now (RATE_LIMITER w)).
Qed.

Lemma getRateLimitStatus_run (w : World) :
  getRateLimitStatus now w =
    (Ok (fst (RateLimiter.getStatus now (RATE_LIMITER w))),
     afterFetch "/status" (RATE_LIMITER w) w).
Proof. reflexivity. Qed.

(** The steps of a lookup, by lookup type. *)
Lemma handleLookup_unfold (type : Cache.LookupType) (request : Request) :
  handleLookup type request =
    (let* word := lift (decodeURIComponent
                          (Js.removeFirst (lookupPrefix type) (pathname request))) in
     match validateWord word with
     | Some invalid => ret invalid
     | None =>
         let* cached := readCache (fun kv => Cache.getCached now kv type word) in
         match cached with
         | Some cached =>
             let* rateLimit := getRateLimitStatus now in
             ret {| status := 200;
                    body := Success (Types.data cached) true (rateLimitOf rateLimit);
                    headers := [("X-Cache", "HIT")] |}
         | None =>
             let* rateLimit := checkRateLimit now in
             if negb (Types.allowed rateLimit) then
               ret (rateLimitedResponse dateNow rateLimit)
             else
               tryCatch
                 (let* result := lift (mw_lookup type word) in
                  let* _ := writeCache (fun kv =>
                              Cache.setCache now kv type word result
                                (Lib.found result)) in
                  ret {| status := 200;
                         body := Success result false (rateLimitOf rateLimit);
                         headers := [("X-Cache", "MISS")] |})
                 (fun error => handleMWError error rateLimit)
         end
     end)%js.
Proof. destruct type; reflexivity. Qed.

Section Lookup.

Variables (type : Cache.LookupType) (request : Request) (word : string) (w : World).

Hypothesis Hword :
  decodeURIComponent (Js.removeFirst (lookupPrefix type) (pathname request)) = Ok word.

Lemma handleLookup_invalid (invalid : Response) :
  validateWord word = Some invalid ->
  handleLookup type request w = (Ok invalid, w).
Proof.
  intros Hinvalid. rewrite handleLookup_unfold.
  unfold bind at 1, lift. now rewrite Hword, Hinvalid.
Qed.

Lemma handleLookup_hit (cached : Types.CachedResponse) :
  validateWord word = None ->
  Cache.getCached now (CACHE w) type word = Some cached ->
  handleLookup type request w =
    (Ok {| status := 200;
           body := Success (Types.data cached) true
                     (rateLimitOf (fst (RateLimiter.getStatus now (RATE_LIMITER w))));
           headers := [("X-Cache", "HIT")] |},
     afterFetch "/status" (RATE_LIMITER w) w).
Proof.
  intros Hvalid Hhit. rewrite handleLookup_unfold.
  unfold bind at 1, lift. rewrite Hword, Hvalid.
  unfold bind at 1, readCache. rewrite Hhit.
  unfold bind. now rewrite getRateLimitStatus_run.
Qed.

(** A miss that the quota lets through: the outcome by what the upstream
    client does. *)
Lemma handleLookup_miss_accepted :
  validateWord word = None ->
  Cache.getCached now (CACHE w) type word = None ->
  Types.allowed (fst (RateLimiter.checkAndIncrement now (RATE_LIMITER w))) = true ->
  let rateLimit := fst (RateLimiter.checkAndIncrement now (RATE_LIMITER w)) in
  let w' := afterFetch "/check"
              (snd (RateLimiter.checkAndIncrement now (RATE_LIMITER w))) w in
  handleLookup type request w =
    match mw_lookup type word with
    | Ok result =>
        (Ok {| status := 200;
               body := Success result false (rateLimitOf rateLimit);
               headers := [("X-Cache", "MISS")] |},
         {| CACHE := Cache.setCache now (CACHE w) type word result (Lib.found result);
            RATE_LIMITER := RATE_LIMITER w';
            subrequests := subrequests w' |})
    | Throw (MW e) => (Ok (upstreamErrorResponse e rateLimit), w')
    | Throw (Other description) => (Throw (Other description), w')
    end.
Proof.
  intros Hvalid Hmiss Hallowed. cbv zeta. rewrite handleLookup_unfold.
  unfold bind at 1, lift. rewrite Hword, Hvalid.
  unfold bind at 1, readCache. rewrite Hmiss.
  unfold bind at 1. rewrite checkRateLimit_run, Hallowed. cbn [negb].
  unfold tryCatch, bind at 1.
  destruct (mw_lookup type word) as [result|[e|description]]; try reflexivity.
  unfold handleMWError, ret, upstreamErrorResponse. now destruct e.
Qed.

End Lookup.

(** C4. Cache-exempts-quota: for every lookup request (of either type)
    whose word is in the cache, handling the request leaves the Durable
    Object as it was, so the stored count is unchanged, and fetches no
    [/check] from it; the cache-hit path of a valid word is exactly the
    read-only [/status] subrequest followed by the cached envelope. *)
Theorem cache_hit_exempts_quota (type : Cache.LookupType) (request : Request)
    (word : string) (cached : Types.CachedResponse) (w : World) :
  decodeURIComponent (Js.removeFirst (lookupPrefix type) (pathname request)) = Ok word ->
  Cache.getCached now (CACHE w) type word = Some cached ->
  RATE_LIMITER (snd (handleLookup type request w)) = RATE_LIMITER w
  /\ CACHE (snd (handleLookup type request w)) = CACHE w
  /\ (exists fetched,
        subrequests (snd (handleLookup type request w)) = (subrequests w ++ fetched)%list
        /\ ~ In "/check" fetched)
  /\ (validateWord word = None ->
      handleLookup type request w =
        (Ok {| status := 200;
               body := Success (Types.data cached) true
                         (rateLimitOf (fst (RateLimiter.getStatus now (RATE_LIMITER w))));
               headers := [("X-Cache", "HIT")] |},
         afterFetch "/status" (RATE_LIMITER w) w)).
Proof.
  intros Hword Hhit.
  destruct (validateWord word) as [invalid|] eqn:Hvalid.
  - rewrite (handleLookup_invalid _ _ _ _ Hword invalid Hvalid). cbn [snd].
    split; [reflexivity|]. split; [reflexivity|].
    split; [|discriminate].
    exists []. split; [now rewrite app_nil_r | intros []].
  - rewrite (handleLookup_hit _ _ _ _ Hword cached Hvalid Hhit).
    cbn [snd afterFetch CACHE RATE_LIMITER subrequests].
    split; [reflexivity|]. split; [reflexivity|].
    split; [|reflexivity].
    exists ["/status"]. split; [reflexivity|].
    intros [H|[]]. discriminate H.
Qed.

(** C8. Upstream failure does not refund: for every cache-missed lookup
    of a valid word in which [checkAndIncrement] answered
    [allowed = true] and the upstream call then fails with an upstream
    error, the handler returns the upstream-error envelope (502, or 503 for
    an invalid key) whose [rateLimit] member has the [remaining], [limit]
    and [resetsAt] of the status that the check returned, that is
    [limit - count - 1], the limit and the next UTC midnight for the count
    in effect before the check; the cache is as it was, the Durable Object
    is as the check left it (one [/check], nothing after it), and the
    count for today is one more than before. *)
Theorem upstream_failure_no_refund (type : Cache.LookupType) (request : Request)
    (word : string) (e : MerriamWebsterError) (w : World) :
  decodeURIComponent (Js.removeFirst (lookupPrefix type) (pathname request)) = Ok word ->
  validateWord word = None ->
  Cache.getCached now (CACHE w) type word = None ->
  Types.allowed (fst (RateLimiter.checkAndIncrement now (RATE_LIMITER w))) = true ->
  mw_lookup type word = Throw (MW e) ->
  let count := RateLimiter.countFor (RateLimiter.getTodayUTC now)
                 (RateLimiter.storage (RATE_LIMITER w)) in
  let checked := RateLimiter.checkAndIncrement now (RATE_LIMITER w) in
  handleLookup type request w =
    (Ok {| status := match e with InvalidKeyError _ => 503 | _ => 502 end;
           body := Failure "UPSTREAM_ERROR"
                     "Dictionary service temporarily unavailable"
                     (Some {| remaining := Types.remaining (fst checked);
                              limit := Types.limit (fst checked);
                              resetsAt := Types.resetsAt (fst checked) |});
           headers := [] |},
     {| CACHE := CACHE w;
        RATE_LIMITER := snd checked;
        subrequests := (subrequests w ++ ["/check"])%list |})
  /\ fst checked =
       {| Types.allowed := true;
          Types.remaining := RateLimiter.limit (RATE_LIMITER w) - count - 1;
          Types.limit := RateLimiter.limit (RATE_LIMITER w);
          Types.resetsAt := RateLimiter.getNextMidnightUTC now |}
  /\ CACHE (snd (handleLookup type request w)) = CACHE w
  /\ RateLimiter.countFor (RateLimiter.getTodayUTC now)
       (RateLimiter.storage (RATE_LIMITER (snd (handleLookup type request w)))) =
     count + 1.
Proof.
  intros Hword Hvalid Hmiss Hallowed Hfail count checked.
  rewrite (handleLookup_miss_accepted _ _ _ _ Hword Hvalid Hmiss Hallowed), Hfail.
  cbn [snd afterFetch CACHE RATE_LIMITER].
  split; [now destruct e|].
  split; [|split; [reflexivity | now apply checkAndIncrement_allowed]].
  destruct (Z_lt_ge_dec count (RateLimiter.limit (RATE_LIMITER w))) as [Hroom|Hfull].
  - unfold checked. now rewrite checkAndIncrement_accepts by exact Hroom.
  - rewrite checkAndIncrement_rejects in Hallowed by (fold count; lia).
    discriminate Hallowed.
Qed.

(** The invalidation handler, outcome by outcome. *)
Lemma handleCacheDelete_run (request : Request) (w : World) :
  handleCacheDelete request w =
    match matchCachePath (pathname request) with
    | None =>
        (Ok {| status := 400;
               body := Failure "INVALID_PATH"
                         "Path must be /cache/{define|synonyms}/{word}" None;
               headers := [] |}, w)
    | Some (type, captured) =>
        match decodeURIComponent captured with
        | Throw thrown => (Throw thrown, w)
        | Ok word =>
            if String.eqb word "" || (100 <? String.length word)%nat then
              (Ok {| status := 400;
                     body := Failure "INVALID_WORD" "Word must be 1-100 characters" None;
                     headers := [] |}, w)
            else if Cache.hasCache now (CACHE w) type word then
              (Ok {| status := 200;
                     body := Deleted (Cache.typeName type) word
                               (Cache.getCacheKey type word);
                     headers := [] |},
               {| CACHE := Cache.deleteCache (CACHE w) type word;
                  RATE_LIMITER := RATE_LIMITER w;
                  subrequests := subrequests w |})
            else
              (Ok {| status := 404;
                     body := Failure "NOT_FOUND"
                               (String.append "No cached entry for "
                                  (String.append (Cache.typeName type)
                                     (String.append ":" word)))
                               None;
                     headers := [] |}, w)
        end
    end.
Proof.
  unfold Endpoint.handleCacheDelete.
  destruct (matchCachePath (pathname request)) as [[type captured]|]; [|reflexivity].
  unfold bind at 1, lift.
  destruct (decodeURIComponent captured) as [word|thrown]; [|reflexivity].
  destruct (String.eqb word "" || (100 <? String.length word)%nat); [reflexivity|].
  unfold bind, readCache, writeCache, ret.
  now destruct (Cache.hasCache now (CACHE w) type word).
Qed.

(** C9. Invalidation: handling an invalidation request never changes the
    Durable Object nor fetches from it.  For a request [(type, word)] with
    a word of 1 to 100 characters: if the cache has no entry for the key,
    the handler reports [NOT_FOUND] and the world is as it was; if it has
    one, the handler reports [deleted: true], removes exactly that key,
    and a later read of the key finds nothing. *)
Theorem invalidation_correct (request : Request) (w : World) :
  RATE_LIMITER (snd (handleCacheDelete request w)) = RATE_LIMITER w
  /\ subrequests (snd (handleCacheDelete request w)) = subrequests w
  /\ (forall (type : Cache.LookupType) (captured word : string),
        matchCachePath (pathname request) = Some (type, captured) ->
        decodeURIComponent captured = Ok word ->
        word <> "" -> (String.length word <= 100)%nat ->
        (Cache.hasCache now (CACHE w) type word = false ->
           handleCacheDelete request w =
             (Ok {| status := 404;
                    body := Failure "NOT_FOUND"
                              (String.append "No cached entry for "
                                 (String.append (Cache.typeName type)
                                    (String.append ":" word)))
                              None;
                    headers := [] |}, w))
        /\ (Cache.hasCache now (CACHE w) type word = true ->
              fst (handleCacheDelete request w) =
                Ok {| status := 200;
                      body := Deleted (Cache.typeName type) word
                                (Cache.getCacheKey type word);
                      headers := [] |}
              /\ CACHE (snd (handleCacheDelete request w)) =
                   base.delete (Cache.getCacheKey type word) (CACHE w)
              /\ (forall key, key <> Cache.getCacheKey type word ->
                    CACHE (snd (handleCacheDelete request w)) !! key = CACHE w !! key)
              /\ (forall t, Cache.getCached t
                              (CACHE (snd (handleCacheDelete request w))) type word
                            = None))).
Proof.
  rewrite handleCacheDelete_run.
  destruct (matchCachePath (pathname request)) as [[type captured]|];
    [|split; [reflexivity|]; split; [reflexivity|]; discriminate].
  destruct (decodeURIComponent captured) as [word|thrown] eqn:Hdecode;
    [|split; [reflexivity|]; split; [reflexivity|];
      intros ? ? ? [= <- <-] Hd; congruence].
  destruct (String.eqb_spec word "") as [Hempty|Hnonempty]; cbn [orb].
  { split; [reflexivity|]. split; [reflexivity|].
    intros ? ? word' [= <- <-] Hd Hne. congruence. }
  destruct (Nat.ltb_spec 100 (String.length word)) as [Hlong|Hshort].
  { split; [reflexivity|]. split; [reflexivity|].
    intros ? ? word' [= <- <-] Hd _ Hle.
    assert (word' = word) by congruence. subst. lia. }
  destruct (Cache.hasCache now (CACHE w) type word) eqn:Hhas; cbn [fst snd].
  - split; [reflexivity|]. split; [reflexivity|].
    intros type' captured' word' [= <- <-] Hd _ _.
    assert (word' = word) by congruence. subst word'.
    rewrite Hhas. split; [discriminate|]. intros _. cbn [CACHE].
    split; [reflexivity|]. split; [reflexivity|].
    unfold Cache.deleteCache, KV.delete. split.
    + intros key Hkey. now apply lookup_delete_ne.
    + intros t. unfold Cache.getCached, KV.get. now rewrite lookup_delete_eq.
  - split; [reflexivity|]. split; [reflexivity|].
    intros type' captured' word' [= <- <-] Hd _ _.
    assert (word' = word) by congruence. subst word'.
    rewrite Hhas. split; [reflexivity | discriminate].
Qed.

Lemma startsWith_split (s p : string) :
  Js.startsWith s p = true -> s = String.append p (Js.slice (String.length p) s).
Proof.
  unfold Js.startsWith. revert s.
  induction p as [|a p IH]; intros s; [reflexivity|].
  destruct s as [|b s]; simpl; [discriminate|].
  destruct (ascii_dec a b) as [<-|]; [|discriminate].
  intros H. change (String a s = String a (String.append p (Js.slice (String.length p) s))).
  f_equal. now apply IH.
Qed.

Lemma startsWith_append (p r : string) :
  Js.startsWith (String.append p r) p = true.
Proof.
  unfold Js.startsWith. induction p as [|a p IH].
  - now destruct r.
  - change (String.prefix (String a p) (String a (String.append p r)) = true).
    simpl. now destruct (ascii_dec a a).
Qed.

Lemma lookup_route (type : Cache.LookupType) (path : string) :
  Js.startsWith path (lookupPrefix type) = true ->
  String.eqb path "/health" = false
  /\ String.eqb path "/rate-limit/status" = false
  /\ Js.startsWith path "/define/" =
       match type with Cache.define => true | Cache.synonyms => false end.
Proof.
  intros H. rewrite (startsWith_split _ _ H).
  destruct type; (split; [reflexivity | split; [reflexivity|]]).
  - apply startsWith_append.
  - reflexivity.
Qed.

(** A routed lookup: the worker adds the CORS headers to what the handler
    returns and answers 500 when the handler throws. *)
Lemma handleRequest_lookup (type : Cache.LookupType) (request : Request) (w : World) :
  method request <> "OPTIONS" ->
  Js.startsWith (pathname request) (lookupPrefix type) = true ->
  validateUserAuth env request = true ->
  handleRequest request w =
    match handleLookup type request w with
    | (Ok response, w') => (Ok (withCors corsHeaders response (origin request)), w')
    | (Throw _, w') =>
        (Ok (withCors corsHeaders internalErrorResponse (origin request)), w')
    end.
Proof.
  intros Hmethod Hpath Hauth. unfold Endpoint.handleRequest.
  destruct (String.eqb_spec (method request) "OPTIONS") as [|_]; [contradiction|].
  destruct (lookup_route type _ Hpath) as (-> & -> & Hdefine).
  rewrite Hdefine, Hauth. cbn [negb].
  destruct type; [|cbn [lookupPrefix] in Hpath; rewrite Hpath];
    unfold tryCatch, bind, ret; cbn [Endpoint.handleLookup].
  - now destruct (handleDefine decodeURIComponent mw_define dateNow now request w)
      as [[response|thrown] w'].
  - now destruct (handleSynonyms decodeURIComponent mw_synonyms dateNow now request w)
      as [[response|thrown] w'].
Qed.

(** C10. Classification of what the upstream client throws during a
    lookup that missed the cache and was let through by the quota: an
    upstream error makes [handleMWError], and so the handler, return the
    envelope with code [UPSTREAM_ERROR], with HTTP status 503 for an
    [InvalidKeyError] and 502 for every other upstream error; anything
    else is thrown again by the handler, and the worker answers it with
    the generic 500 envelope. *)
Theorem upstream_error_classification (type : Cache.LookupType) (request : Request)
    (word : string) (error : Thrown) (w : World) :
  method request <> "OPTIONS" ->
  Js.startsWith (pathname request) (lookupPrefix type) = true ->
  validateUserAuth env request = true ->
  decodeURIComponent (Js.removeFirst (lookupPrefix type) (pathname request)) = Ok word ->
  validateWord word = None ->
  Cache.getCached now (CACHE w) type word = None ->
  Types.allowed (fst (RateLimiter.checkAndIncrement now (RATE_LIMITER w))) = true ->
  mw_lookup type word = Throw error ->
  let rateLimit := fst (RateLimiter.checkAndIncrement now (RATE_LIMITER w)) in
  fst (handleMWError error rateLimit w) =
    match error with
    | MW e => Ok (upstreamErrorResponse e rateLimit)
    | Other _ => Throw error
    end
  /\ fst (handleLookup type request w) = fst (handleMWError error rateLimit w)
  /\ exists response,
       fst (handleRequest request w) = Ok response
       /\ status response =
            match error with
            | MW (InvalidKeyError _) => 503
            | MW _ => 502
            | Other _ => 500
            end
       /\ body response =
            match error with
            | MW _ => Failure "UPSTREAM_ERROR"
                        "Dictionary service temporarily unavailable"
                        (Some (rateLimitOf rateLimit))
            | Other _ => Failure "INTERNAL_ERROR" "An unexpected error occurred" None
            end.
Proof.
  intros Hmethod Hpath Hauth Hword Hvalid Hmiss Hallowed Hthrow rateLimit.
  assert (Hclass : fst (handleMWError error rateLimit w) =
                     match error with
                     | MW e => Ok (upstreamErrorResponse e rateLimit)
                     | Other _ => Throw error
                     end).
  { destruct error as [e|description]; [|reflexivity].
    unfold handleMWError, ret, upstreamErrorResponse. now destruct e. }
  pose proof (handleLookup_miss_accepted _ _ _ _ Hword Hvalid Hmiss Hallowed) as Hrun.
  cbv zeta in Hrun. rewrite Hthrow in Hrun. fold rateLimit in Hrun.
  split; [exact Hclass|].
  split.
  { rewrite Hclass, Hrun. now destruct error. }
  rewrite (handleRequest_lookup type request w Hmethod Hpath Hauth), Hrun.
  destruct error as [e|description]; cbn [fst].
  - eexists. split; [reflexivity|]. cbn [withCors status body upstreamErrorResponse].
    split; [now destruct e | reflexivity].
  - eexists. split; [reflexivity|]. split; reflexivity.
Qed.

End Pipeline.

Lemma cache_hit_exempts_quota_witness :
  let kv : gmap string KV.Entry := {[ "define|word" := Sample.entry true None ]} in
  let w := Sample.world kv 7 1000 in
  Runtime.RATE_LIMITER
    (snd (Endpoint.handleLookup Sample.decode Sample.finding Sample.finding 6 5
            Cache.define (Sample.get "/define/WORD") w)) = Runtime.RATE_LIMITER w.
Proof.
  cbv zeta.
  apply (cache_hit_exempts_quota Sample.decode Sample.finding Sample.finding 6 5
           Cache.define (Sample.get "/define/WORD") "WORD"
           (KV.value (Sample.entry true None))).
  - reflexivity.
  - reflexivity.
Defined.

Lemma upstream_failure_no_refund_witness :
  let failing := Sample.failing (Errors.MW (Errors.TimeoutError 5000)) in
  Endpoint.handleLookup Sample.decode failing failing 6 5
    Cache.synonyms (Sample.get "/synonyms/word") (Sample.world ∅ 7 1000) =
    (Errors.Ok
       {| Http.status := 502;
          Http.body := Http.Failure "UPSTREAM_ERROR"
                         "Dictionary service temporarily unavailable"
                         (Some {| Http.remaining := 992; Http.limit := 1000;
                                  Http.resetsAt := 86400000 |});
          Http.headers := [] |},
     {| Runtime.CACHE := ∅;
        Runtime.RATE_LIMITER :=
          {| RateLimiter.storage :=
               Some {| RateLimiter.date := 0; RateLimiter.count := 8 |};
             RateLimiter.limit := 1000 |};
        Runtime.subrequests := ["/check"] |}).
Proof.
  cbv zeta.
  exact (proj1 (upstream_failure_no_refund Sample.decode
                  (Sample.failing (Errors.MW (Errors.TimeoutError 5000)))
                  (Sample.failing (Errors.MW (Errors.TimeoutError 5000))) 6 5
                  Cache.synonyms (Sample.get "/synonyms/word") "word"
                  (Errors.TimeoutError 5000) (Sample.world ∅ 7 1000)
                  eq_refl eq_refl eq_refl eq_refl eq_refl)).
Defined.

Lemma invalidation_correct_witness :
  let kv : gmap string KV.Entry := {[ "define|test" := Sample.entry true None ]} in
  (forall t,
     Cache.getCached t
       (Runtime.CACHE (snd (Endpoint.handleCacheDelete Sample.decode 5
                              (Sample.delete "/cache/define/test")
                              (Sample.world kv 7 1000))))
       Cache.define "test" = None)
  /\ Endpoint.handleCacheDelete Sample.decode 5 (Sample.delete "/cache/define/test")
       (Sample.world ∅ 7 1000) =
       (Errors.Ok {| Http.status := 404;
                     Http.body := Http.Failure "NOT_FOUND"
                                    "No cached entry for define:test" None;
                     Http.headers := [] |},
        Sample.world ∅ 7 1000).
Proof.
  cbv zeta. split.
  - apply (proj2 (proj2 (invalidation_correct Sample.decode 5
                           (Sample.delete "/cache/define/test")
                           (Sample.world {[ "define|test" := Sample.entry true None ]}
                              7 1000)))
             Cache.define "test" "test");
      try reflexivity; [discriminate | simpl; lia].
  - apply (proj2 (proj2 (invalidation_correct Sample.decode 5
                           (Sample.delete "/cache/define/test")
                           (Sample.world ∅ 7 1000)))
             Cache.define "test" "test");
      try reflexivity; [discriminate | simpl; lia].
Defined.

Lemma upstream_error_classification_witness :
  exists response,
    fst (Endpoint.handleRequest Sample.decode
           (Sample.failing (Errors.MW (Errors.InvalidKeyError "dictionary")))
           Sample.finding Sample.cors Sample.env 6 5
           (Sample.get "/define/word") (Sample.world ∅ 7 1000)) = Errors.Ok response
    /\ Http.status response = 503
    /\ Http.body response =
         Http.Failure "UPSTREAM_ERROR" "Dictionary service temporarily unavailable"
           (Some {| Http.remaining := 992; Http.limit := 1000;
                    Http.resetsAt := 86400000 |}).
Proof.
  apply (upstream_error_classification Sample.decode
           (Sample.failing (Errors.MW (Errors.InvalidKeyError "dictionary")))
           Sample.finding Sample.cors Sample.env 6 5
           Cache.define (Sample.get "/define/word") "word"
           (Errors.MW (Errors.InvalidKeyError "dictionary")) (Sample.world ∅ 7 1000)).
  - discriminate.
  - reflexivity.
  - reflexivity.
  - reflexivity.
  - reflexivity.
  - reflexivity.
  - reflexivity.
  - reflexivity.
Defined.

(** The scenario of four lookups under a limit of 2: a miss that consumes
    quota, a hit that does not, a second miss that exhausts the quota, and
    a third miss that is refused. *)
Example four_lookups_under_limit_2 :
  let quota remaining :=
    {| Http.remaining := remaining; Http.limit := 2; Http.resetsAt := 86400000 |} in
  let w0 := Sample.world ∅ 0 2 in
  let r1 := Sample.serve (Sample.get "/define/alpha") w0 in
  let r2 := Sample.serve (Sample.get "/define/alpha") (snd r1) in
  let r3 := Sample.serve (Sample.get "/define/beta") (snd r2) in
  let r4 := Sample.serve (Sample.get "/define/gamma") (snd r3) in
  Sample.outcome r1 =
    (Some (200, Http.Success (Lib.Entries ["alpha"]) false (quota 1)), Some 1)
  /\ Sample.outcome r2 =
       (Some (200, Http.Success (Lib.Entries ["alpha"]) true (quota 1)), Some 1)
  /\ Sample.outcome r3 =
       (Some (200, Http.Success (Lib.Entries ["beta"]) false (quota 0)), Some 2)
  /\ Sample.outcome r4 =
       (Some (429, Http.Failure "RATE_LIMITED"
                     "Daily API limit exceeded. Try again tomorrow."
                     (Some (quota 0))), Some 2)
  /\ Runtime.subrequests (snd r4) = ["/check"; "/status"; "/check"; "/check"].
Proof. cbv zeta. repeat split; vm_compute; reflexivity. Qed.

(** * Further properties of the code *)

(** ** The quota counter: reset instant and reported capacity *)

Section QuotaReadings.

Import RateLimiter.

Lemma checks_limit (nows : list Z) :
  forall self : t, limit (snd (checks nows self)) = limit self.
Proof.
  induction nows as [|now nows IH]; intros self; [reflexivity|].
  rewrite checks_cons. cbn [snd]. now rewrite IH, checkAndIncrement_limit.
Qed.

Lemma countFor_within (today : Z) (self : t) :
  (forall s, storage self = Some s -> 0 <= count s <= limit self) ->
  0 < limit self ->
  0 <= countFor today (storage self) <= limit self.
Proof.
  intros Hinv Hpos. unfold countFor.
  destruct (storage self) as [s|]; [|lia].
  specialize (Hinv s eq_refl). destruct (date s =? today); lia.
Qed.

(** X1. The reset instant that both operations report is the next UTC
    midnight: it is strictly after the clock reading and at most one day
    after it, it is a day boundary, it falls on the day after today, and
    the instant just before it is still today. *)
Theorem getNextMidnightUTC_is_next_midnight (now : Z) :
  now < getNextMidnightUTC now <= now + msPerDay
  /\ getNextMidnightUTC now mod msPerDay = 0
  /\ getTodayUTC (getNextMidnightUTC now) = getTodayUTC now + 1
  /\ getTodayUTC (getNextMidnightUTC now - 1) = getTodayUTC now.
Proof.
  unfold getNextMidnightUTC, getTodayUTC, msPerDay.
  pose proof (Z.div_mod now 86400000 ltac:(lia)) as Hdm.
  pose proof (Z.mod_pos_bound now 86400000 ltac:(lia)) as Hb.
  split; [lia|]. split; [apply Z.mod_mul; lia|].
  split; [apply Z.div_mul; lia|].
  symmetry. apply (Z.div_unique _ _ _ 86399999); lia.
Qed.

(** X2. A status query made later on the same day as a check reports the
    [remaining] and the [limit] that the check returned, provided the count
    for the day was within the limit before the check. *)
Theorem getStatus_after_check_agrees (now now' : Z) (self : t) :
  getTodayUTC now' = getTodayUTC now ->
  countFor (getTodayUTC now) (storage self) <= limit self ->
  Types.remaining (fst (getStatus now' (snd (checkAndIncrement now self)))) =
    Types.remaining (fst (checkAndIncrement now self))
  /\ Types.limit (fst (getStatus now' (snd (checkAndIncrement now self)))) =
       Types.limit (fst (checkAndIncrement now self)).
Proof.
  intros Hday Hc. cbn [getStatus fst Types.remaining Types.limit]. rewrite Hday.
  destruct (Z_lt_ge_dec (countFor (getTodayUTC now) (storage self)) (limit self))
    as [Hroom|Hfull].
  - rewrite checkAndIncrement_accepts by exact Hroom.
    cbn [fst snd storage limit Types.remaining Types.limit].
    rewrite countFor_today. split; [lia | reflexivity].
  - rewrite checkAndIncrement_rejects by lia.
    cbn [fst snd Types.remaining Types.limit]. split; [lia | reflexivity].
Qed.

Lemma getStatus_after_check_agrees_witness :
  Types.remaining
    (fst (getStatus 86399999
            (snd (checkAndIncrement 5
                    {| storage := Some {| date := 0; count := 3 |}; limit := 10 |})))) =
  Types.remaining
    (fst (checkAndIncrement 5
            {| storage := Some {| date := 0; count := 3 |}; limit := 10 |})).
Proof.
  apply (getStatus_after_check_agrees 5 86399999
           {| storage := Some {| date := 0; count := 3 |}; limit := 10 |}).
  - reflexivity.
  - simpl. lia.
Defined.

(** X3. Starting from an empty storage with a positive limit, after any run
    of checks at any clock readings, a status query at any instant reports
    [0 <= remaining <= limit], a check at any instant reports
    [0 <= remaining < limit], and both report the configured limit. *)
Theorem remaining_within_bounds_from_empty (limit0 : Z) (nows : list Z) (now : Z) :
  0 < limit0 ->
  let self := snd (checks nows {| storage := None; limit := limit0 |}) in
  0 <= Types.remaining (fst (getStatus now self)) <= limit0
  /\ 0 <= Types.remaining (fst (checkAndIncrement now self)) < limit0
  /\ Types.limit (fst (getStatus now self)) = limit0
  /\ Types.limit (fst (checkAndIncrement now self)) = limit0.
Proof.
  intros Hpos self.
  assert (Hlimit : limit self = limit0) by apply checks_limit.
  assert (Hc : 0 <= countFor (getTodayUTC now) (storage self) <= limit self).
  { apply countFor_within; [|lia].
    unfold self. rewrite checks_limit. cbn [limit].
    apply (checks_count_within_limit nows {| storage := None; limit := limit0 |});
      cbn [limit storage]; [exact Hpos | discriminate]. }
  cbn [getStatus fst Types.remaining Types.limit].
  destruct (Z_lt_ge_dec (countFor (getTodayUTC now) (storage self)) (limit self))
    as [Hroom|Hfull].
  - rewrite checkAndIncrement_accepts by exact Hroom.
    cbn [fst Types.remaining Types.limit]. lia.
  - rewrite checkAndIncrement_rejects by lia.
    cbn [fst Types.remaining Types.limit]. lia.
Qed.

Lemma remaining_within_bounds_from_empty_witness :
  0 <= Types.remaining
         (fst (getStatus 7 (snd (checks [1; 2; 86400001]
                                   {| storage := None; limit := 2 |})))) <= 2.
Proof.
  apply (remaining_within_bounds_from_empty 2 [1; 2; 86400001] 7).
  reflexivity.
Defined.

End QuotaReadings.

(** ** The cache: collisions, overwriting and deletion *)

Section CacheStore.

Import Cache.

Lemma typeName_inj (t1 t2 : LookupType) (x y : string) :
  String.append (typeName t1) (String.append "|" x) =
  String.append (typeName t2) (String.append "|" y) ->
  t1 = t2 /\ x = y.
Proof.
  destruct t1, t2; intros H.
  - split; [reflexivity|]. now do 2 apply (inj (String.append _)) in H.
  - discriminate H.
  - discriminate H.
  - split; [reflexivity|]. now do 2 apply (inj (String.append _)) in H.
Qed.

Lemma getCacheKey_ne (type type' : LookupType) (word word' : string) :
  type' <> type \/ Js.toLowerCase word' <> Js.toLowerCase word ->
  getCacheKey type word <> getCacheKey type' word'.
Proof.
  intros Hdiff Heq. apply typeName_inj in Heq as [-> Hw].
  destruct Hdiff as [H|H]; [now apply H | now apply H].
Qed.

(** X4. Two lookups share a cache fingerprint exactly when they have the
    same lookup type and their words have the same lower-case form; a
    dictionary entry and a thesaurus entry never collide, whatever the
    words. *)
Theorem getCacheKey_collision (t1 t2 : LookupType) (w1 w2 : string) :
  (getCacheKey t1 w1 = getCacheKey t2 w2 <->
   t1 = t2 /\ Js.toLowerCase w1 = Js.toLowerCase w2)
  /\ getCacheKey define w1 <> getCacheKey synonyms w2.
Proof.
  split.
  - split.
    + apply typeName_inj.
    + intros [-> Hw]. unfold getCacheKey. now rewrite Hw.
  - intros H. apply typeName_inj in H as [H _]. discriminate H.
Qed.

(** X5. A cache write changes no other fingerprint: reads and existence
    checks of a lookup with another type or another lower-case word are as
    before the write. *)
Theorem setCache_other_fingerprints (now t : Z) (kv : gmap string KV.Entry)
    (type type' : LookupType) (word word' : string) (data : Lib.LookupResult)
    (found : bool) :
  type' <> type \/ Js.toLowerCase word' <> Js.toLowerCase word ->
  getCached t (setCache now kv type word data found) type' word' =
    getCached t kv type' word'
  /\ hasCache t (setCache now kv type word data found) type' word' =
       hasCache t kv type' word'.
Proof.
  intros Hdiff. apply getCacheKey_ne in Hdiff.
  unfold hasCache, getCached, setCache, KV.get, KV.put.
  now rewrite lookup_insert_ne by exact Hdiff.
Qed.

Lemma setCache_other_fingerprints_witness :
  getCached 9 (setCache 5 ∅ define "Test" (Lib.Entries ["test:1"]) true)
    synonyms "test" = getCached 9 ∅ synonyms "test".
Proof.
  apply (setCache_other_fingerprints 5 9 ∅ define synonyms "Test" "test"
           (Lib.Entries ["test:1"]) true).
  left. discriminate.
Defined.

(** X6. The last write wins: a write for a word replaces whatever an
    earlier write for the same type and a case variant of the word had
    stored, data, timestamp and expiration alike; in particular a not-found
    entry overwritten by a found one no longer expires. *)
Theorem setCache_last_write_wins (now1 now2 : Z) (kv : gmap string KV.Entry)
    (type : LookupType) (word1 word2 : string) (data1 data2 : Lib.LookupResult)
    (found1 found2 : bool) :
  Js.toLowerCase word1 = Js.toLowerCase word2 ->
  setCache now2 (setCache now1 kv type word1 data1 found1) type word2 data2 found2 =
    setCache now2 kv type word2 data2 found2
  /\ (forall t,
        getCached t
          (setCache now2 (setCache now1 kv type word1 data1 false) type word2 data2 true)
          type word1 =
        Some {| Types.data := data2; Types.cachedAt := now2; Types.found := true |}).
Proof.
  intros Hsame.
  assert (Hkey : getCacheKey type word1 = getCacheKey type word2)
    by (unfold getCacheKey; now rewrite Hsame).
  split.
  - unfold setCache, KV.put. rewrite Hkey. apply insert_insert_eq.
  - intros t. unfold getCached, setCache, KV.get, KV.put.
    rewrite Hkey, lookup_insert_eq. reflexivity.
Qed.

Lemma setCache_last_write_wins_witness :
  getCached 86400005
    (setCache 7 (setCache 5 ∅ define "xyzzy" (Lib.Suggestions []) false)
       define "XYZZY" (Lib.Entries ["xyzzy:1"]) true)
    define "xyzzy" =
  Some {| Types.data := Lib.Entries ["xyzzy:1"]; Types.cachedAt := 7;
          Types.found := true |}.
Proof.
  apply (proj2 (setCache_last_write_wins 5 7 ∅ define "xyzzy" "XYZZY"
                  (Lib.Suggestions []) (Lib.Entries ["xyzzy:1"]) false true eq_refl)
           86400005).
Defined.

(** X7. Deletion is idempotent and harmless on an absent key: deleting
    twice is deleting once, deleting a key that is not stored leaves the
    namespace as it is, and a deletion never changes what is read under
    another fingerprint. *)
Theorem deleteCache_idempotent (kv : gmap string KV.Entry)
    (type : LookupType) (word : string) :
  deleteCache (deleteCache kv type word) type word = deleteCache kv type word
  /\ (kv !! getCacheKey type word = None -> deleteCache kv type word = kv)
  /\ (forall t type' word',
        type' <> type \/ Js.toLowerCase word' <> Js.toLowerCase word ->
        getCached t (deleteCache kv type word) type' word' = getCached t kv type' word').
Proof.
  unfold deleteCache, KV.delete. split; [apply delete_delete_eq|].
  split; [apply delete_id|].
  intros t type' word' Hdiff. apply getCacheKey_ne in Hdiff.
  unfold getCached, KV.get. now rewrite lookup_delete_ne by exact Hdiff.
Qed.

Lemma deleteCache_idempotent_witness :
  deleteCache {[ "synonyms|happy" := Sample.entry true None ]} define "happy" =
    {[ "synonyms|happy" := Sample.entry true None ]}.
Proof.
  apply (deleteCache_idempotent {[ "synonyms|happy" := Sample.entry true None ]}
           define "happy").
  reflexivity.
Defined.

End CacheStore.

(** ** The lookup handlers: every path of a request *)

Section Lookups.

Import Errors Runtime Http Endpoint Notions.

Variable decodeURIComponent : string -> Result string.
Variable mw_define : string -> Result Lib.LookupResult.
Variable mw_synonyms : string -> Result Lib.LookupResult.

Abbreviation handleLookup := (handleLookup decodeURIComponent mw_define mw_synonyms).
Abbreviation mw_lookup := (mw_lookup mw_define mw_synonyms).

(** The lookup handlers, outcome by outcome. *)
Lemma handleLookup_run (dateNow now : Z) (type : Cache.LookupType) (request : Request)
    (w : World) :
  handleLookup dateNow now type request w =
    match decodeURIComponent (Js.removeFirst (lookupPrefix type) (pathname request)) with
    | Throw thrown => (Throw thrown, w)
    | Ok word =>
        match validateWord word with
        | Some invalid => (Ok invalid, w)
        | None =>
            match Cache.getCached now (CACHE w) type word with
            | Some cached =>
                (Ok {| status := 200;
                       body := Success (Types.data cached) true
                                 (rateLimitOf
                                    (fst (RateLimiter.getStatus now (RATE_LIMITER w))));
                       headers := [("X-Cache", "HIT")] |},
                 afterFetch "/status" (RATE_LIMITER w) w)
            | None =>
                let rateLimit :=
                  fst (RateLimiter.checkAndIncrement now (RATE_LIMITER w)) in
                let w' := afterFetch "/check"
                            (snd (RateLimiter.checkAndIncrement now (RATE_LIMITER w))) w in
                if Types.allowed rateLimit then
                  match mw_lookup type word with
                  | Ok result =>
                      (Ok {| status := 200;
                             body := Success result false (rateLimitOf rateLimit);
                             headers := [("X-Cache", "MISS")] |},
                       {| CACHE := Cache.setCache now (CACHE w) type word result
                                     (Lib.found result);
                          RATE_LIMITER := RATE_LIMITER w';
                          subrequests := subrequests w' |})
                  | Throw (MW e) => (Ok (upstreamErrorResponse e rateLimit), w')
                  | Throw (Other description) => (Throw (Other description), w')
                  end
                else (Ok (rateLimitedResponse dateNow rateLimit), w')
            end
        end
    end.
Proof.
  destruct (decodeURIComponent (Js.removeFirst (lookupPrefix type) (pathname request)))
    as [word|thrown] eqn:Hword.
  - destruct (validateWord word) as [invalid|] eqn:Hvalid.
    + exact (handleLookup_invalid _ _ _ _ now type request word w Hword invalid Hvalid).
    + destruct (Cache.getCached now (CACHE w) type word) as [cached|] eqn:Hcached.
      * exact (handleLookup_hit _ _ _ _ now type request word w Hword cached Hvalid
                 Hcached).
      * cbv zeta.
        destruct (Types.allowed (fst (RateLimiter.checkAndIncrement now (RATE_LIMITER w))))
          eqn:Hallowed.
        -- exact (handleLookup_miss_accepted _ _ _ _ now type request word w Hword
                    Hvalid Hcached Hallowed).
        -- rewrite handleLookup_unfold.
           unfold bind at 1, lift. rewrite Hword, Hvalid.
           unfold bind at 1, readCache. rewrite Hcached.
           unfold bind at 1. now rewrite checkRateLimit_run, Hallowed.
  - rewrite handleLookup_unfold. unfold bind at 1, lift. now rewrite Hword.
Qed.

Lemma validateWord_None_iff (word : string) :
  validateWord word = None <-> (1 <= String.length word <= 100)%nat.
Proof.
  unfold validateWord. destruct word as [|c r]; cbn [String.eqb orb String.length].
  - split; [discriminate | lia].
  - change (String.eqb (String c r) "") with false. cbn [orb].
    destruct (Nat.ltb_spec 100 (S (String.length r))); split; try discriminate;
      try reflexivity; lia.
Qed.

Lemma getCached_same_lower (now : Z) (kv : gmap string KV.Entry)
    (type : Cache.LookupType) (word word' : string) :
  Js.toLowerCase word' = Js.toLowerCase word ->
  Cache.getCached now kv type word' = Cache.getCached now kv type word.
Proof. intros Hsame. unfold Cache.getCached, Cache.getCacheKey. now rewrite Hsame. Qed.

(** The rendering of instants as ISO timestamps, on a leap day, before the
    epoch, and at the two ends of the range of [Date]. *)
Example toISOString_samples :
  Js.toISOString 0 = "1970-01-01T00:00:00.000Z"
  /\ Js.toISOString 86400000 = "1970-01-02T00:00:00.000Z"
  /\ Js.toISOString 1709251199999 = "2024-02-29T23:59:59.999Z"
  /\ Js.toISOString 1700000000000 = "2023-11-14T22:13:20.000Z"
  /\ Js.toISOString (-1) = "1969-12-31T23:59:59.999Z"
  /\ Js.toISOString 8640000000000000 = "+275760-09-13T00:00:00.000Z"
  /\ Js.toISOString (-8640000000000000) = "-271821-04-20T00:00:00.000Z".
Proof. repeat split; vm_compute; reflexivity. Qed.

(** The seconds to wait, by where the worker's clock reading lies between
    the reading of the Durable Object and the reset. *)
Lemma retryAfter_bounds (dateNow now : Z) :
  let reset := RateLimiter.getNextMidnightUTC now in
  (now <= dateNow < reset -> 1 <= (reset - dateNow + 999) / 1000 <= 86400)
  /\ (reset <= dateNow -> (reset - dateNow + 999) / 1000 <= 0).
Proof.
  cbv zeta. unfold RateLimiter.getNextMidnightUTC, RateLimiter.msPerDay.
  pose proof (Z.div_mod now 86400000 ltac:(lia)) as Hdm.
  pose proof (Z.mod_pos_bound now 86400000 ltac:(lia)) as Hb.
  split.
  - intros Hbetween. split.
    + apply Z.div_le_lower_bound; lia.
    + apply Z.lt_succ_r, Z.div_lt_upper_bound; lia.
  - intros Hpast. apply Z.lt_succ_r, Z.div_lt_upper_bound; lia.
Qed.

(** X8. A lookup whose word is empty or longer than 100 code units is
    answered 400 [INVALID_WORD] and touches nothing: no cache read or
    write, no quota subrequest, no upstream call; every other word passes
    the validation. *)
Theorem lookup_rejects_invalid_word (dateNow now : Z) (type : Cache.LookupType)
    (request : Request) (word : string) (w : World) :
  decodeURIComponent (Js.removeFirst (lookupPrefix type) (pathname request)) = Ok word ->
  (validateWord word = None <-> (1 <= String.length word <= 100)%nat)
  /\ (~ (1 <= String.length word <= 100)%nat ->
      handleLookup dateNow now type request w =
        (Ok {| status := 400;
               body := Failure "INVALID_WORD" "Word must be 1-100 characters" None;
               headers := [] |}, w)).
Proof.
  intros Hword. split; [apply validateWord_None_iff|].
  intros Hlen. rewrite handleLookup_run, Hword.
  destruct (validateWord word) as [invalid|] eqn:Hvalid.
  - unfold validateWord in Hvalid.
    destruct (String.eqb word "" || (100 <? String.length word)%nat);
      [|discriminate]. now injection Hvalid as <-.
  - apply validateWord_None_iff in Hvalid. contradiction.
Qed.

(** X9. A lookup that misses the cache while today's count has reached the
    limit is answered 429 [RATE_LIMITED] with [remaining = 0], the limit
    and the next UTC midnight by the clock of the Durable Object; the
    upstream client is not called, the cache and the counter are as before,
    and the only subrequest is the [/check].  [X-RateLimit-Reset] is that
    midnight as an ISO timestamp, and [Retry-After] the seconds, rounded
    up, from the worker's own later clock reading to it: 1 to 86400 when
    that reading is not before the reading of the Durable Object and is
    before the midnight, and 0 or less once it has reached the midnight. *)
Theorem lookup_refused_when_exhausted (dateNow now : Z) (type : Cache.LookupType)
    (request : Request) (word : string) (w : World) :
  decodeURIComponent (Js.removeFirst (lookupPrefix type) (pathname request)) = Ok word ->
  validateWord word = None ->
  Cache.getCached now (CACHE w) type word = None ->
  RateLimiter.limit (RATE_LIMITER w) <=
    RateLimiter.countFor (RateLimiter.getTodayUTC now)
      (RateLimiter.storage (RATE_LIMITER w)) ->
  let reset := RateLimiter.getNextMidnightUTC now in
  handleLookup dateNow now type request w =
    (Ok {| status := 429;
           body := Failure "RATE_LIMITED"
                     "Daily API limit exceeded. Try again tomorrow."
                     (Some {| remaining := 0;
                              limit := RateLimiter.limit (RATE_LIMITER w);
                              resetsAt := reset |});
           headers :=
             [ ("Retry-After", pretty ((reset - dateNow + 999) / 1000));
               ("X-RateLimit-Limit", pretty (RateLimiter.limit (RATE_LIMITER w)));
               ("X-RateLimit-Remaining", "0");
               ("X-RateLimit-Reset", Js.toISOString reset) ] |},
     {| CACHE := CACHE w;
        RATE_LIMITER := RATE_LIMITER w;
        subrequests := (subrequests w ++ ["/check"])%list |})
  /\ (now <= dateNow < reset -> 1 <= (reset - dateNow + 999) / 1000 <= 86400)
  /\ (reset <= dateNow -> (reset - dateNow + 999) / 1000 <= 0).
Proof.
  intros Hword Hvalid Hmiss Hfull reset.
  split; [|apply (retryAfter_bounds dateNow now)].
  rewrite handleLookup_run, Hword, Hvalid, Hmiss. cbv zeta.
  rewrite checkAndIncrement_rejects by exact Hfull. reflexivity.
Qed.

Lemma handleLookup_miss_consults_quota (dateNow now : Z) (type : Cache.LookupType)
    (request : Request) (word : string) (w : World) :
  decodeURIComponent (Js.removeFirst (lookupPrefix type) (pathname request)) = Ok word ->
  validateWord word = None ->
  Cache.getCached now (CACHE w) type word = None ->
  subrequests (snd (handleLookup dateNow now type request w)) = (subrequests w ++ ["/check"])%list.
Proof.
  intros Hword Hvalid Hmiss.
  rewrite handleLookup_run, Hword, Hvalid, Hmiss. cbv zeta.
  destruct (Types.allowed _); [|reflexivity].
  now destruct (mw_lookup type word) as [result|[e|description]].
Qed.

Lemma handleLookup_found_world (dateNow now : Z) (type : Cache.LookupType)
    (request : Request) (word : string) (result : Lib.LookupResult) (w : World) :
  decodeURIComponent (Js.removeFirst (lookupPrefix type) (pathname request)) = Ok word ->
  validateWord word = None ->
  Cache.getCached now (CACHE w) type word = None ->
  Types.allowed (fst (RateLimiter.checkAndIncrement now (RATE_LIMITER w))) = true ->
  mw_lookup type word = Ok result ->
  snd (handleLookup dateNow now type request w) =
    {| CACHE := Cache.setCache now (CACHE w) type word result (Lib.found result);
       RATE_LIMITER := snd (RateLimiter.checkAndIncrement now (RATE_LIMITER w));
       subrequests := (subrequests w ++ ["/check"])%list |}.
Proof.
  intros Hword Hvalid Hmiss Hallowed Hresult.
  rewrite handleLookup_run, Hword, Hvalid, Hmiss. cbv zeta.
  now rewrite Hallowed, Hresult.
Qed.

(** X10. After a lookup that missed, was let through by the quota and got
    a result from upstream, and once the cache write it started has been
    applied, a lookup of a word that passes the validation and has the same
    lower-case form is served from the cache with the same data and
    [cached = true], as long as the result was a found one or less than
    86400 seconds have passed: it leaves the counter as the first lookup
    left it, and on the same day it reports the [remaining] that the first
    lookup reported. *)
Theorem repeated_lookup_is_served_from_cache (dateNow now dateNow' now' : Z)
    (type : Cache.LookupType) (request request' : Request) (word word' : string)
    (result : Lib.LookupResult) (w : World) :
  decodeURIComponent (Js.removeFirst (lookupPrefix type) (pathname request)) = Ok word ->
  validateWord word = None ->
  Cache.getCached now (CACHE w) type word = None ->
  Types.allowed (fst (RateLimiter.checkAndIncrement now (RATE_LIMITER w))) = true ->
  mw_lookup type word = Ok result ->
  decodeURIComponent (Js.removeFirst (lookupPrefix type) (pathname request')) = Ok word' ->
  validateWord word' = None ->
  Js.toLowerCase word' = Js.toLowerCase word ->
  Lib.found result = true \/ now' < now + 86400000 ->
  let w1 := snd (handleLookup dateNow now type request w) in
  handleLookup dateNow' now' type request' w1 =
    (Ok {| status := 200;
           body := Success result true
                     (rateLimitOf (fst (RateLimiter.getStatus now' (RATE_LIMITER w1))));
           headers := [("X-Cache", "HIT")] |},
     afterFetch "/status" (RATE_LIMITER w1) w1)
  /\ RATE_LIMITER w1 = snd (RateLimiter.checkAndIncrement now (RATE_LIMITER w))
  /\ (RateLimiter.getTodayUTC now' = RateLimiter.getTodayUTC now ->
      Types.remaining (fst (RateLimiter.getStatus now' (RATE_LIMITER w1))) =
        Types.remaining (fst (RateLimiter.checkAndIncrement now (RATE_LIMITER w)))).
Proof.
  intros Hword Hvalid Hmiss Hallowed Hresult Hword' Hvalid' Hsame Hfresh w1.
  assert (Hw1 : w1 = {| CACHE := Cache.setCache now (CACHE w) type word result
                                   (Lib.found result);
                        RATE_LIMITER :=
                          snd (RateLimiter.checkAndIncrement now (RATE_LIMITER w));
                        subrequests := (subrequests w ++ ["/check"])%list |})
    by now apply handleLookup_found_world.
  assert (Hhit : Cache.getCached now' (CACHE w1) type word' =
                   Some {| Types.data := result; Types.cachedAt := now;
                           Types.found := Lib.found result |}).
  { rewrite (getCached_same_lower _ _ _ word word' Hsame), Hw1. cbn [CACHE].
    unfold Cache.getCached, Cache.setCache. rewrite get_put_same.
    destruct (Lib.found result); [reflexivity|].
    destruct Hfresh as [Hfound|Hsoon]; [discriminate|].
    unfold Cache.NOT_FOUND_TTL.
    destruct (Z.ltb_spec now' (now + 60 * 60 * 24 * 1000)); [reflexivity | lia]. }
  split.
  { rewrite (handleLookup_hit _ _ _ _ now' type request' word' w1 Hword'
               _ Hvalid' Hhit).
    reflexivity. }
  split; [now rewrite Hw1|].
  intros Hday. rewrite Hw1. cbn [RATE_LIMITER].
  assert (Hroom : RateLimiter.countFor (RateLimiter.getTodayUTC now)
                    (RateLimiter.storage (RATE_LIMITER w)) <
                  RateLimiter.limit (RATE_LIMITER w)).
  { destruct (Z_lt_ge_dec
                (RateLimiter.countFor (RateLimiter.getTodayUTC now)
                   (RateLimiter.storage (RATE_LIMITER w)))
                (RateLimiter.limit (RATE_LIMITER w))) as [H|H]; [exact H|].
    rewrite checkAndIncrement_rejects in Hallowed by lia. discriminate Hallowed. }
  rewrite checkAndIncrement_accepts by exact Hroom.
  cbn [RateLimiter.getStatus fst snd Types.remaining RateLimiter.storage
       RateLimiter.limit].
  rewrite Hday, countFor_today. lia.
Qed.

(** X11. A not-found result stays cached for 86400 seconds only: from that
    instant on, a lookup of a word that passes the validation and has the
    same lower-case form no longer finds the entry and goes to the quota
    counter again. *)
Theorem not_found_entry_expires (dateNow now dateNow' now' : Z) (type : Cache.LookupType)
    (request request' : Request) (word word' : string) (result : Lib.LookupResult)
    (w : World) :
  decodeURIComponent (Js.removeFirst (lookupPrefix type) (pathname request)) = Ok word ->
  validateWord word = None ->
  Cache.getCached now (CACHE w) type word = None ->
  Types.allowed (fst (RateLimiter.checkAndIncrement now (RATE_LIMITER w))) = true ->
  mw_lookup type word = Ok result ->
  Lib.found result = false ->
  decodeURIComponent (Js.removeFirst (lookupPrefix type) (pathname request')) = Ok word' ->
  validateWord word' = None ->
  Js.toLowerCase word' = Js.toLowerCase word ->
  now + 86400000 <= now' ->
  let w1 := snd (handleLookup dateNow now type request w) in
  Cache.getCached now' (CACHE w1) type word' = None
  /\ subrequests
       (snd (handleLookup dateNow' now' type request' w1)) =
       (subrequests w1 ++ ["/check"])%list.
Proof.
  intros Hword Hvalid Hmiss Hallowed Hresult Hnotfound Hword' Hvalid' Hsame Hlate w1.
  assert (Hgone : Cache.getCached now' (CACHE w1) type word' = None).
  { unfold w1.
    rewrite (handleLookup_found_world dateNow now type request word result w Hword
               Hvalid Hmiss Hallowed Hresult).
    cbn [CACHE]. rewrite (getCached_same_lower _ _ _ word word' Hsame).
    unfold Cache.getCached, Cache.setCache. rewrite get_put_same, Hnotfound.
    unfold Cache.NOT_FOUND_TTL.
    destruct (Z.ltb_spec now' (now + 60 * 60 * 24 * 1000)); [lia | reflexivity]. }
  split; [exact Hgone|].
  exact (handleLookup_miss_consults_quota dateNow' now' type request' word' w1
           Hword' Hvalid' Hgone).
Qed.

(** X12. What a lookup can change: it writes at most the fingerprint of its
    own word, every other key of the cache is as before, and the counter is
    either as before or as one [checkAndIncrement] leaves it. *)
Theorem lookup_changes_only_its_fingerprint (dateNow now : Z) (type : Cache.LookupType)
    (request : Request) (w : World) :
  (forall key,
     (forall word,
        decodeURIComponent (Js.removeFirst (lookupPrefix type) (pathname request))
          = Ok word ->
        key <> Cache.getCacheKey type word) ->
     CACHE (snd (handleLookup dateNow now type request w)) !! key = CACHE w !! key)
  /\ (RATE_LIMITER (snd (handleLookup dateNow now type request w)) = RATE_LIMITER w
      \/ RATE_LIMITER (snd (handleLookup dateNow now type request w)) =
           snd (RateLimiter.checkAndIncrement now (RATE_LIMITER w))).
Proof.
  rewrite handleLookup_run.
  destruct (decodeURIComponent (Js.removeFirst (lookupPrefix type) (pathname request)))
    as [word|thrown]; [|split; [reflexivity | now left]].
  destruct (validateWord word); [split; [reflexivity | now left]|].
  destruct (Cache.getCached now (CACHE w) type word);
    [split; [reflexivity | now left]|].
  cbv zeta. destruct (Types.allowed _); [|split; [reflexivity | now right]].
  destruct (mw_lookup type word) as [result|[e|description]];
    try (split; [reflexivity | now right]).
  split; [|now right].
  intros key Hkey. cbn [snd CACHE]. unfold Cache.setCache, KV.put.
  apply lookup_insert_ne. intros Heq. now apply (Hkey word).
Qed.

End Lookups.

(** X13. The upstream client is consulted only by a lookup that passed the
    validation, missed the cache and was let through by the quota: in every
    other case the answer and the world after the request are the same
    whatever the upstream client would do. *)
Theorem upstream_called_only_on_accepted_miss
    (decodeURIComponent : string -> Errors.Result string)
    (mw_define mw_synonyms mw_define' mw_synonyms' :
       string -> Errors.Result Lib.LookupResult)
    (dateNow now : Z) (type : Cache.LookupType) (request : Http.Request)
    (w : Runtime.World) :
  (forall word,
     decodeURIComponent
       (Js.removeFirst (Endpoint.lookupPrefix type) (Http.pathname request))
       = Errors.Ok word ->
     Endpoint.validateWord word = None ->
     Cache.getCached now (Runtime.CACHE w) type word = None ->
     Types.allowed
       (fst (RateLimiter.checkAndIncrement now (Runtime.RATE_LIMITER w))) = false) ->
  Endpoint.handleLookup decodeURIComponent mw_define mw_synonyms dateNow now
    type request w =
  Endpoint.handleLookup decodeURIComponent mw_define' mw_synonyms' dateNow now
    type request w.
Proof.
  intros Hnot. rewrite !handleLookup_run.
  destruct (decodeURIComponent _) as [word|thrown] eqn:Hword; [|reflexivity].
  destruct (Endpoint.validateWord word) eqn:Hvalid; [reflexivity|].
  destruct (Cache.getCached now (Runtime.CACHE w) type word) eqn:Hmiss; [reflexivity|].
  cbv zeta. now rewrite (Hnot word eq_refl Hvalid Hmiss).
Qed.

Lemma upstream_called_only_on_accepted_miss_witness :
  let w := Sample.world {[ "define|word" := Sample.entry true None ]} 7 1000 in
  Endpoint.handleLookup Sample.decode Sample.finding Sample.finding 6 5
    Cache.define (Sample.get "/define/word") w =
  Endpoint.handleLookup Sample.decode
    (Sample.failing (Errors.Other "unreachable"))
    (Sample.failing (Errors.Other "unreachable")) 6 5
    Cache.define (Sample.get "/define/word") w.
Proof.
  cbv zeta.
  apply (upstream_called_only_on_accepted_miss Sample.decode).
  intros word Hword _ Hmiss.
  injection Hword as <-. discriminate Hmiss.
Defined.

Lemma lookup_rejects_invalid_word_witness :
  Endpoint.handleLookup Sample.decode Sample.finding Sample.finding 6 5
    Cache.define (Sample.get "/define/") (Sample.world ∅ 7 1000) =
    (Errors.Ok {| Http.status := 400;
                  Http.body := Http.Failure "INVALID_WORD"
                                 "Word must be 1-100 characters" None;
                  Http.headers := [] |},
     Sample.world ∅ 7 1000).
Proof.
  apply (proj2 (lookup_rejects_invalid_word Sample.decode Sample.finding Sample.finding
                  6 5 Cache.define (Sample.get "/define/") "" (Sample.world ∅ 7 1000)
                  eq_refl)).
  simpl. lia.
Defined.

Lemma lookup_refused_when_exhausted_witness :
  Endpoint.handleLookup Sample.decode Sample.finding Sample.finding 1500 5
    Cache.synonyms (Sample.get "/synonyms/word") (Sample.world ∅ 1000 1000) =
    (Errors.Ok
       {| Http.status := 429;
          Http.body := Http.Failure "RATE_LIMITED"
                         "Daily API limit exceeded. Try again tomorrow."
                         (Some {| Http.remaining := 0; Http.limit := 1000;
                                  Http.resetsAt := 86400000 |});
          Http.headers :=
            [ ("Retry-After", "86399");
              ("X-RateLimit-Limit", "1000");
              ("X-RateLimit-Remaining", "0");
              ("X-RateLimit-Reset", "1970-01-02T00:00:00.000Z") ] |},
     {| Runtime.CACHE := ∅;
        Runtime.RATE_LIMITER :=
          {| RateLimiter.storage :=
               Some {| RateLimiter.date := 0; RateLimiter.count := 1000 |};
             RateLimiter.limit := 1000 |};
        Runtime.subrequests := ["/check"] |}).
Proof.
  refine (proj1 (lookup_refused_when_exhausted Sample.decode Sample.finding
                   Sample.finding 1500 5 Cache.synonyms (Sample.get "/synonyms/word")
                   "word" (Sample.world ∅ 1000 1000) eq_refl eq_refl eq_refl _)).
  simpl. lia.
Defined.

Lemma repeated_lookup_is_served_from_cache_witness :
  let w1 := snd (Endpoint.handleLookup Sample.decode Sample.finding Sample.finding 6 5
                   Cache.define (Sample.get "/define/word") (Sample.world ∅ 7 1000)) in
  Runtime.RATE_LIMITER w1 =
    snd (RateLimiter.checkAndIncrement 5
           (Runtime.RATE_LIMITER (Sample.world ∅ 7 1000))).
Proof.
  cbv zeta.
  apply (repeated_lookup_is_served_from_cache Sample.decode Sample.finding
           Sample.finding 6 5 86400008 86400007 Cache.define
           (Sample.get "/define/word") (Sample.get "/define/WORD") "word" "WORD"
           (Lib.Entries ["word"]) (Sample.world ∅ 7 1000)).
  - reflexivity.
  - reflexivity.
  - reflexivity.
  - reflexivity.
  - reflexivity.
  - reflexivity.
  - reflexivity.
  - reflexivity.
  - left. reflexivity.
Defined.

Lemma not_found_entry_expires_witness :
  let missing (word : string) : Errors.Result Lib.LookupResult :=
    Errors.Ok (Lib.Suggestions []) in
  let w1 := snd (Endpoint.handleLookup Sample.decode missing missing 6 5
                   Cache.define (Sample.get "/define/xyzzy") (Sample.world ∅ 7 1000)) in
  Cache.getCached 86400005 (Runtime.CACHE w1) Cache.define "XYZZY" = None.
Proof.
  cbv zeta.
  apply (not_found_entry_expires Sample.decode
           (fun _ => Errors.Ok (Lib.Suggestions []))
           (fun _ => Errors.Ok (Lib.Suggestions [])) 6 5 86400006 86400005 Cache.define
           (Sample.get "/define/xyzzy") (Sample.get "/define/XYZZY") "xyzzy" "XYZZY"
           (Lib.Suggestions []) (Sample.world ∅ 7 1000)).
  - reflexivity.
  - reflexivity.
  - reflexivity.
  - reflexivity.
  - reflexivity.
  - reflexivity.
  - reflexivity.
  - reflexivity.
  - reflexivity.
  - lia.
Defined.

Lemma lookup_changes_only_its_fingerprint_witness :
  let kv : gmap string KV.Entry := {[ "synonyms|word" := Sample.entry true None ]} in
  Runtime.CACHE
    (snd (Endpoint.handleLookup Sample.decode Sample.finding Sample.finding 6 5
            Cache.define (Sample.get "/define/word") (Sample.world kv 7 1000)))
    !! "synonyms|word" = Runtime.CACHE (Sample.world kv 7 1000) !! "synonyms|word".
Proof.
  cbv zeta.
  apply (proj1 (lookup_changes_only_its_fingerprint Sample.decode Sample.finding
                  Sample.finding 6 5 Cache.define (Sample.get "/define/word")
                  (Sample.world {[ "synonyms|word" := Sample.entry true None ]} 7 1000))).
  intros word Hword. injection Hword as <-. discriminate.
Defined.

(** ** The invalidation handler *)

Section Invalidation.

Import Errors Runtime Http Endpoint.

Variable decodeURIComponent : string -> Result string.
Variable mw_define : string -> Result Lib.LookupResult.
Variable mw_synonyms : string -> Result Lib.LookupResult.

Lemma slice_append (p r : string) :
  Js.slice (String.length p) (String.append p r) = r.
Proof.
  induction p as [|a p IH]; [reflexivity|].
  change (Js.slice (String.length p) (String.append p r) = r). exact IH.
Qed.

Lemma captureRest_Some (prefix s rest : string) :
  captureRest prefix s = Some rest <->
  s = String.append prefix rest /\ rest <> "" /\ hasLineTerminator rest = false.
Proof.
  unfold captureRest. split.
  - destruct (Js.startsWith s prefix) eqn:Hstarts; [|discriminate].
    apply startsWith_split in Hstarts.
    destruct (String.eqb_spec (Js.slice (String.length prefix) s) "") as [|Hne];
      [discriminate|]. cbn [orb].
    destruct (hasLineTerminator (Js.slice (String.length prefix) s)) eqn:Hlt;
      [discriminate|].
    intros [= <-]. repeat split; assumption.
  - intros (-> & Hne & Hlt).
    rewrite startsWith_append, slice_append, Hlt.
    destruct (String.eqb_spec rest ""); [contradiction | reflexivity].
Qed.

(** X14. The path of an invalidation request is read back exactly: a path
    matches with type [type] and word [word] if and only if it is
    [/cache/<type>/<word>] with a non-empty word free of line terminators;
    everything else, an unknown type and an empty word included, does not
    match. *)
Theorem matchCachePath_exact (pathname : string) (type : Cache.LookupType)
    (word : string) :
  matchCachePath pathname = Some (type, word) <->
  pathname = String.append "/cache/"
               (String.append (Cache.typeName type) (String.append "/" word))
  /\ word <> "" /\ hasLineTerminator word = false.
Proof.
  unfold matchCachePath. split.
  - destruct (captureRest "/cache/define/" pathname) as [rest|] eqn:Hdefine.
    + intros [= <- <-]. now apply captureRest_Some in Hdefine.
    + destruct (captureRest "/cache/synonyms/" pathname) as [rest|] eqn:Hsynonyms;
        [|discriminate].
      intros [= <- <-]. now apply captureRest_Some in Hsynonyms.
  - intros (-> & Hne & Hlt). destruct type.
    + assert (H : captureRest "/cache/define/" (String.append "/cache/define/" word)
                  = Some word) by now apply captureRest_Some.
      change (String.append "/cache/"
                (String.append (Cache.typeName Cache.define) (String.append "/" word)))
        with (String.append "/cache/define/" word).
      now rewrite H.
    + assert (H : captureRest "/cache/synonyms/" (String.append "/cache/synonyms/" word)
                  = Some word) by now apply captureRest_Some.
      change (String.append "/cache/"
                (String.append (Cache.typeName Cache.synonyms) (String.append "/" word)))
        with (String.append "/cache/synonyms/" word).
      now rewrite H.
Qed.

Lemma matchCachePath_exact_witness :
  matchCachePath "/cache/synonyms/happy" = Some (Cache.synonyms, "happy").
Proof.
  apply (proj2 (matchCachePath_exact "/cache/synonyms/happy" Cache.synonyms "happy")).
  split; [reflexivity|]. split; [discriminate | reflexivity].
Defined.

(** X15. An invalidation request never adds or alters a cache entry and
    removes at most one key; unless it is answered 200 the world is exactly
    as before. *)
Theorem handleCacheDelete_only_removes_one (now : Z) (request : Request) (w : World) :
  (forall key,
     CACHE (snd (handleCacheDelete decodeURIComponent now request w)) !! key
       = CACHE w !! key
     \/ CACHE (snd (handleCacheDelete decodeURIComponent now request w)) !! key = None)
  /\ (forall key1 key2,
        CACHE (snd (handleCacheDelete decodeURIComponent now request w)) !! key1
          <> CACHE w !! key1 ->
        CACHE (snd (handleCacheDelete decodeURIComponent now request w)) !! key2
          <> CACHE w !! key2 ->
        key1 = key2)
  /\ (snd (handleCacheDelete decodeURIComponent now request w) = w
      \/ exists response,
           fst (handleCacheDelete decodeURIComponent now request w) = Ok response
           /\ status response = 200).
Proof.
  rewrite handleCacheDelete_run.
  assert (Hsame : forall (r : Result Response),
            (forall key, CACHE (snd (r, w)) !! key = CACHE w !! key
                         \/ CACHE (snd (r, w)) !! key = None)
            /\ (forall key1 key2,
                  CACHE (snd (r, w)) !! key1 <> CACHE w !! key1 ->
                  CACHE (snd (r, w)) !! key2 <> CACHE w !! key2 -> key1 = key2)
            /\ (snd (r, w) = w
                \/ exists response, fst (r, w) = Ok response /\ status response = 200)).
  { intros r. cbn [snd]. split; [now left|]. split; [congruence | now left]. }
  destruct (matchCachePath (pathname request)) as [[type captured]|]; [|apply Hsame].
  destruct (decodeURIComponent captured) as [word|thrown]; [|apply Hsame].
  destruct (String.eqb word "" || (100 <? String.length word)%nat); [apply Hsame|].
  destruct (Cache.hasCache now (CACHE w) type word); [|apply Hsame].
  cbn [fst snd CACHE]. unfold Cache.deleteCache, KV.delete.
  split; [|split].
  - intros key. destruct (decide (Cache.getCacheKey type word = key)) as [<-|Hne].
    + right. apply lookup_delete_eq.
    + left. now apply lookup_delete_ne.
  - intros key1 key2 H1 H2.
    destruct (decide (Cache.getCacheKey type word = key1)) as [<-|Hne1];
      [|now rewrite lookup_delete_ne in H1].
    destruct (decide (Cache.getCacheKey type word = key2)) as [<-|Hne2];
      [reflexivity | now rewrite lookup_delete_ne in H2].
  - right. eexists. split; reflexivity.
Qed.

Lemma get_stays_absent (now now' : Z) (key : string) (kv : gmap string KV.Entry) :
  now <= now' -> KV.get now key kv = None -> KV.get now' key kv = None.
Proof.
  unfold KV.get, KV.live. intros Hle.
  destruct (kv !! key) as [[v [t|]]|]; cbn [KV.expiration]; try discriminate;
    [|reflexivity].
  destruct (Z.ltb_spec now t); [discriminate|].
  destruct (Z.ltb_spec now' t); [lia | reflexivity].
Qed.

(** X16. After an invalidation request for a word of 1 to 100 code units,
    whether it reported the deletion or [NOT_FOUND], a later lookup of the
    same type for a word that passes the validation and has the same
    lower-case form misses the cache and goes to the quota counter. *)
Theorem lookup_after_invalidation_misses (now dateNow' now' : Z)
    (type : Cache.LookupType) (request request' : Request)
    (captured word word' : string) (w : World) :
  matchCachePath (pathname request) = Some (type, captured) ->
  decodeURIComponent captured = Ok word ->
  (1 <= String.length word <= 100)%nat ->
  decodeURIComponent (Js.removeFirst (lookupPrefix type) (pathname request')) = Ok word' ->
  validateWord word' = None ->
  Js.toLowerCase word' = Js.toLowerCase word ->
  now <= now' ->
  let w1 := snd (handleCacheDelete decodeURIComponent now request w) in
  Cache.getCached now' (CACHE w1) type word' = None
  /\ subrequests
       (snd (handleLookup decodeURIComponent mw_define mw_synonyms dateNow' now'
               type request' w1))
     = (subrequests w1 ++ ["/check"])%list.
Proof.
  intros Hmatch Hword Hlen Hword' Hvalid' Hsame Hle w1.
  assert (Hvalid : validateWord word = None) by now apply validateWord_None_iff.
  assert (Hgone : Cache.getCached now' (CACHE w1) type word' = None).
  { rewrite (getCached_same_lower _ _ _ word word' Hsame).
    unfold w1. rewrite handleCacheDelete_run, Hmatch, Hword.
    unfold validateWord in Hvalid.
    destruct (String.eqb word "" || (100 <? String.length word)%nat); [discriminate|].
    unfold Cache.hasCache.
    destruct (KV.get now (Cache.getCacheKey type word) (CACHE w)) eqn:Hget; cbn [snd CACHE].
    - apply get_delete_same.
    - now apply (get_stays_absent now now'). }
  split; [exact Hgone|].
  apply (handleLookup_miss_consults_quota decodeURIComponent mw_define mw_synonyms
           dateNow' now' type request' word' w1 Hword' Hvalid' Hgone).
Qed.

End Invalidation.

Lemma lookup_after_invalidation_misses_witness :
  let kv : gmap string KV.Entry := {[ "define|test" := Sample.entry true None ]} in
  let w1 := snd (Endpoint.handleCacheDelete Sample.decode 5
                   (Sample.delete "/cache/define/Test") (Sample.world kv 7 1000)) in
  Cache.getCached 6 (Runtime.CACHE w1) Cache.define "TEST" = None.
Proof.
  cbv zeta.
  apply (lookup_after_invalidation_misses Sample.decode Sample.finding Sample.finding
           5 7 6 Cache.define (Sample.delete "/cache/define/Test")
           (Sample.get "/define/TEST") "Test" "Test" "TEST"
           (Sample.world {[ "define|test" := Sample.entry true None ]} 7 1000)).
  - reflexivity.
  - reflexivity.
  - simpl. lia.
  - reflexivity.
  - reflexivity.
  - reflexivity.
  - lia.
Defined.

Lemma handleCacheDelete_only_removes_one_witness :
  let kv : gmap string KV.Entry :=
    {[ "define|test" := Sample.entry true None;
       "synonyms|test" := Sample.entry true None ]} in
  let w1 := snd (Endpoint.handleCacheDelete Sample.decode 5
                   (Sample.delete "/cache/define/test") (Sample.world kv 7 1000)) in
  Runtime.CACHE w1 !! "define|test" <> Runtime.CACHE (Sample.world kv 7 1000) !! "define|test"
  /\ forall key,
       Runtime.CACHE w1 !! key <> Runtime.CACHE (Sample.world kv 7 1000) !! key ->
       "define|test" = key.
Proof.
  cbv zeta. split; [vm_compute; discriminate|].
  intros key Hkey.
  apply (proj1 (proj2 (handleCacheDelete_only_removes_one Sample.decode 5
                         (Sample.delete "/cache/define/test")
                         (Sample.world {[ "define|test" := Sample.entry true None;
                                          "synonyms|test" := Sample.entry true None ]}
                            7 1000)))
           "define|test" key); [vm_compute; discriminate | exact Hkey].
Defined.

(** ** The worker: routing, credentials and the answer to every request *)

Section Routing.

Import Errors Runtime Http Endpoint.

Variable decodeURIComponent : string -> Result string.
Variable mw_define : string -> Result Lib.LookupResult.
Variable mw_synonyms : string -> Result Lib.LookupResult.
Variable corsHeaders : option string -> list (string * string).
Variable env : Env.
Variable dateNow : Z.
Variable now : Z.

Abbreviation handleLookup :=
  (handleLookup decodeURIComponent mw_define mw_synonyms dateNow now).
Abbreviation handleRequest :=
  (handleRequest decodeURIComponent mw_define mw_synonyms corsHeaders env dateNow now).
Abbreviation handleCacheDelete := (handleCacheDelete decodeURIComponent now).
Abbreviation withCors := (withCors corsHeaders).

(** What the worker makes of the outcome of a handler. *)
Lemma handleRequest_routes (request : Request) (w : World) :
  handleRequest request w =
    let finish (r : Result Response * World) :=
      match r with
      | (Ok response, w') => (Ok (withCors response (origin request)), w')
      | (Throw _, w') => (Ok (withCors internalErrorResponse (origin request)), w')
      end in
    let refuse (response : Response) :=
      (Ok (withCors response (origin request)), w) in
    if String.eqb (method request) "OPTIONS" then
      (Ok (handlePreflight corsHeaders request), w)
    else if String.eqb (pathname request) "/health" then
      refuse (handleHealth now)
    else if String.eqb (pathname request) "/rate-limit/status" then
      if validateUserAuth env request
      then finish (handleRateLimitStatus now w) else refuse unauthorizedResponse
    else if Js.startsWith (pathname request) "/define/" then
      if validateUserAuth env request
      then finish (handleLookup Cache.define request w) else refuse unauthorizedResponse
    else if Js.startsWith (pathname request) "/synonyms/" then
      if validateUserAuth env request
      then finish (handleLookup Cache.synonyms request w) else refuse unauthorizedResponse
    else if Js.startsWith (pathname request) "/cache/"
            && String.eqb (method request) "DELETE" then
      if validateAdminAuth env request
      then finish (handleCacheDelete request w) else refuse forbiddenResponse
    else refuse notFoundResponse.
Proof.
  cbv zeta. unfold Endpoint.handleRequest, tryCatch, bind, ret.
  cbn [Endpoint.handleLookup].
  destruct (validateUserAuth env request), (validateAdminAuth env request);
    cbn [negb];
    repeat match goal with
           | |- context [if ?c then _ else _] =>
               lazymatch c with
               | context [if _ then _ else _] => fail
               | _ => destruct c
               end
           end; try reflexivity.
  all: match goal with
       | |- context [let (_, _) := ?handled in _] =>
           now destruct handled as [[response|thrown] w']
       end.
Qed.

Lemma handleRateLimitStatus_run (w : World) :
  handleRateLimitStatus now w =
    (Ok {| status := 200;
           body := StatusData (fst (RateLimiter.getStatus now (RATE_LIMITER w)));
           headers := [] |},
     afterFetch "/status" (RATE_LIMITER w) w).
Proof. reflexivity. Qed.

Lemma handleLookup_status (type : Cache.LookupType) (request : Request) (w : World)
    (response : Response) :
  fst (handleLookup type request w) = Ok response ->
  In (status response) [200; 400; 429; 502; 503].
Proof.
  rewrite handleLookup_run.
  destruct (decodeURIComponent _) as [word|thrown]; [|discriminate].
  destruct (validateWord word) as [invalid|] eqn:Hvalid.
  { intros [= <-]. unfold validateWord in Hvalid.
    destruct (String.eqb word "" || (100 <? String.length word)%nat); [|discriminate].
    injection Hvalid as <-. simpl. tauto. }
  destruct (Cache.getCached now (CACHE w) type word).
  { intros [= <-]. simpl. tauto. }
  cbv zeta. destruct (Types.allowed _).
  - destruct (Endpoint.mw_lookup mw_define mw_synonyms type word)
      as [result|[e|description]]; [| |discriminate].
    + intros [= <-]. simpl. tauto.
    + intros [= <-]. destruct e; simpl; tauto.
  - intros [= <-]. simpl. tauto.
Qed.

Lemma handleCacheDelete_status (request : Request) (w : World) (response : Response) :
  fst (handleCacheDelete request w) = Ok response ->
  In (status response) [200; 400; 404].
Proof.
  rewrite handleCacheDelete_run.
  destruct (matchCachePath (pathname request)) as [[type captured]|];
    [|intros [= <-]; simpl; tauto].
  destruct (decodeURIComponent captured) as [word|thrown]; [|discriminate].
  destruct (String.eqb word "" || (100 <? String.length word)%nat);
    [intros [= <-]; simpl; tauto|].
  destruct (Cache.hasCache now (CACHE w) type word); intros [= <-]; simpl; tauto.
Qed.

Lemma cache_route (path : string) :
  Js.startsWith path "/cache/" = true ->
  String.eqb path "/health" = false
  /\ String.eqb path "/rate-limit/status" = false
  /\ Js.startsWith path "/define/" = false
  /\ Js.startsWith path "/synonyms/" = false.
Proof.
  intros H. rewrite (startsWith_split _ _ H). repeat split.
Qed.

(** X17. The worker answers every request: nothing that a handler throws
    leaves [handleRequest], and the HTTP status of the answer is one of
    200, 204, 400, 401, 403, 404, 429, 500, 502 and 503. *)
Theorem handleRequest_always_responds (request : Request) (w : World) :
  exists response,
    fst (handleRequest request w) = Ok response
    /\ In (status response) [200; 204; 400; 401; 403; 404; 429; 500; 502; 503].
Proof.
  rewrite handleRequest_routes. cbv zeta.
  assert (Hlookup : forall type,
            exists response,
              fst (match handleLookup type request w with
                   | (Ok response, w') => (Ok (withCors response (origin request)), w')
                   | (Throw _, w') =>
                       (Ok (withCors internalErrorResponse (origin request)), w')
                   end) = Ok response
              /\ In (status response) [200; 204; 400; 401; 403; 404; 429; 500; 502; 503]).
  { intros type.
    destruct (handleLookup type request w) as [[response|thrown] w'] eqn:Hrun.
    - pose proof (handleLookup_status type request w response) as Hs.
      rewrite Hrun in Hs. specialize (Hs eq_refl).
      eexists. split; [reflexivity|]. cbn [fst withCors status]. simpl in *. tauto.
    - eexists. split; [reflexivity|]. simpl. tauto. }
  destruct (String.eqb (method request) "OPTIONS");
    [eexists; split; [reflexivity | simpl; tauto]|].
  destruct (String.eqb (pathname request) "/health");
    [eexists; split; [reflexivity | simpl; tauto]|].
  destruct (String.eqb (pathname request) "/rate-limit/status").
  { destruct (validateUserAuth env request);
      eexists; (split; [reflexivity | simpl; tauto]). }
  destruct (Js.startsWith (pathname request) "/define/").
  { destruct (validateUserAuth env request); [apply Hlookup|].
    eexists; split; [reflexivity | simpl; tauto]. }
  destruct (Js.startsWith (pathname request) "/synonyms/").
  { destruct (validateUserAuth env request); [apply Hlookup|].
    eexists; split; [reflexivity | simpl; tauto]. }
  destruct (Js.startsWith (pathname request) "/cache/"
            && String.eqb (method request) "DELETE");
    [|eexists; split; [reflexivity | simpl; tauto]].
  destruct (validateAdminAuth env request);
    [|eexists; split; [reflexivity | simpl; tauto]].
  destruct (handleCacheDelete request w) as [[response|thrown] w'] eqn:Hrun.
  - pose proof (handleCacheDelete_status request w response) as Hs.
    rewrite Hrun in Hs. specialize (Hs eq_refl).
    eexists. split; [reflexivity|]. cbn [fst withCors status]. simpl in *. tauto.
  - eexists. split; [reflexivity|]. simpl. tauto.
Qed.

(** X18. Without the user key, a request for the quota status or for a
    lookup is answered 401 [UNAUTHORIZED] and touches nothing: no cache
    read, no quota subrequest, no upstream call. *)
Theorem user_routes_require_user_key (request : Request) (w : World) :
  method request <> "OPTIONS" ->
  pathname request = "/rate-limit/status"
  \/ Js.startsWith (pathname request) "/define/" = true
  \/ Js.startsWith (pathname request) "/synonyms/" = true ->
  validateUserAuth env request = false ->
  handleRequest request w =
    (Ok (withCors {| status := 401;
                     body := Failure "UNAUTHORIZED" "Invalid or missing API key" None;
                     headers := [] |} (origin request)), w).
Proof.
  intros Hmethod Hpath Hauth. rewrite handleRequest_routes, Hauth. cbv zeta.
  destruct (String.eqb_spec (method request) "OPTIONS"); [contradiction|].
  destruct Hpath as [Hpath|[Hpath|Hpath]].
  - now rewrite Hpath.
  - destruct (lookup_route Cache.define _ Hpath) as (-> & -> & ->). reflexivity.
  - destruct (lookup_route Cache.synonyms _ Hpath) as (-> & -> & ->).
    now rewrite Hpath.
Qed.

(** X19. Without the admin key, a [DELETE] under [/cache/] is answered 403
    [FORBIDDEN] and touches nothing, whether or not the request carries the
    user key. *)
Theorem invalidation_requires_admin_key (request : Request) (w : World) :
  method request = "DELETE" ->
  Js.startsWith (pathname request) "/cache/" = true ->
  validateAdminAuth env request = false ->
  handleRequest request w =
    (Ok (withCors {| status := 403;
                     body := Failure "FORBIDDEN" "Admin access required" None;
                     headers := [] |} (origin request)), w).
Proof.
  intros Hmethod Hpath Hauth. rewrite handleRequest_routes, Hauth, Hmethod. cbv zeta.
  destruct (cache_route _ Hpath) as (-> & -> & -> & ->).
  now rewrite Hpath.
Qed.

(** X20. Only a lookup can change the counter, and only a lookup or a
    [DELETE] under [/cache/] can change the cache: a request whose path
    starts with neither [/define/] nor [/synonyms/] leaves the Durable
    Object as it was, and if it is not a [DELETE] under [/cache/] either,
    the cache too. *)
Theorem only_lookups_consume_quota (request : Request) (w : World) :
  Js.startsWith (pathname request) "/define/" = false ->
  Js.startsWith (pathname request) "/synonyms/" = false ->
  RATE_LIMITER (snd (handleRequest request w)) = RATE_LIMITER w
  /\ (Js.startsWith (pathname request) "/cache/" && String.eqb (method request) "DELETE"
      = false ->
      CACHE (snd (handleRequest request w)) = CACHE w).
Proof.
  intros Hdefine Hsynonyms.
  rewrite handleRequest_routes, Hdefine, Hsynonyms, handleRateLimitStatus_run. cbv zeta.
  destruct (String.eqb (method request) "OPTIONS"); [now split|].
  destruct (String.eqb (pathname request) "/health"); [now split|].
  destruct (String.eqb (pathname request) "/rate-limit/status");
    [now destruct (validateUserAuth env request)|].
  destruct (Js.startsWith (pathname request) "/cache/"
            && String.eqb (method request) "DELETE"); [|now split].
  split; [|discriminate].
  destruct (validateAdminAuth env request); [|reflexivity].
  rewrite handleCacheDelete_run.
  destruct (matchCachePath (pathname request)) as [[type captured]|]; [|reflexivity].
  destruct (decodeURIComponent captured) as [word|thrown]; [|reflexivity].
  destruct (String.eqb word "" || (100 <? String.length word)%nat); [reflexivity|].
  now destruct (Cache.hasCache now (CACHE w) type word).
Qed.

(** X21. The quota status endpoint, with the user key, answers 200 with
    the status that [getStatus] reports in the stored state, and leaves the
    counter and the cache as they were; its only subrequest is [/status]. *)
Theorem status_endpoint_reads_only (request : Request) (w : World) :
  method request <> "OPTIONS" ->
  pathname request = "/rate-limit/status" ->
  validateUserAuth env request = true ->
  handleRequest request w =
    (Ok (withCors
           {| status := 200;
              body := StatusData
                        {| Types.allowed := true;
                           Types.remaining :=
                             RateLimiter.limit (RATE_LIMITER w)
                             - RateLimiter.countFor (RateLimiter.getTodayUTC now)
                                 (RateLimiter.storage (RATE_LIMITER w));
                           Types.limit := RateLimiter.limit (RATE_LIMITER w);
                           Types.resetsAt := RateLimiter.getNextMidnightUTC now |};
              headers := [] |} (origin request)),
     {| CACHE := CACHE w; RATE_LIMITER := RATE_LIMITER w;
        subrequests := (subrequests w ++ ["/status"])%list |}).
Proof.
  intros Hmethod Hpath Hauth.
  rewrite handleRequest_routes, Hauth, Hpath, handleRateLimitStatus_run. cbv zeta.
  destruct (String.eqb_spec (method request) "OPTIONS"); [contradiction|].
  reflexivity.
Qed.

(** X22. A lookup whose path cannot be decoded is answered 500
    [INTERNAL_ERROR], not 400: what [decodeURIComponent] throws reaches the
    catch of the worker, before any cache read or quota subrequest, so the
    world is as before. *)
Theorem undecodable_word_is_internal_error (type : Cache.LookupType)
    (request : Request) (thrown : Thrown) (w : World) :
  method request <> "OPTIONS" ->
  Js.startsWith (pathname request) (lookupPrefix type) = true ->
  validateUserAuth env request = true ->
  decodeURIComponent (Js.removeFirst (lookupPrefix type) (pathname request))
    = Throw thrown ->
  handleRequest request w =
    (Ok (withCors {| status := 500;
                     body := Failure "INTERNAL_ERROR" "An unexpected error occurred" None;
                     headers := [] |} (origin request)), w).
Proof.
  intros Hmethod Hpath Hauth Hthrow.
  rewrite (handleRequest_lookup decodeURIComponent mw_define mw_synonyms corsHeaders
             env dateNow now type request w Hmethod Hpath Hauth).
  now rewrite handleLookup_run, Hthrow.
Qed.

End Routing.

Lemma user_routes_require_user_key_witness :
  Endpoint.handleRequest Sample.decode Sample.finding Sample.finding Sample.cors
    Sample.env 6 5 (Sample.delete "/define/word") (Sample.world ∅ 7 1000) =
    (Errors.Ok (Endpoint.withCors Sample.cors
                  {| Http.status := 401;
                     Http.body := Http.Failure "UNAUTHORIZED"
                                    "Invalid or missing API key" None;
                     Http.headers := [] |} None),
     Sample.world ∅ 7 1000).
Proof.
  apply (user_routes_require_user_key Sample.decode Sample.finding Sample.finding
           Sample.cors Sample.env 6 5 (Sample.delete "/define/word")
           (Sample.world ∅ 7 1000)).
  - discriminate.
  - right. left. reflexivity.
  - reflexivity.
Defined.

Lemma invalidation_requires_admin_key_witness :
  let request :=
    {| Http.method := "DELETE"; Http.pathname := "/cache/define/word";
       Http.authorization := Some "Bearer user-key"; Http.origin := None |} in
  let w := Sample.world {[ "define|word" := Sample.entry true None ]} 7 1000 in
  Endpoint.handleRequest Sample.decode Sample.finding Sample.finding Sample.cors
    Sample.env 6 5 request w =
    (Errors.Ok (Endpoint.withCors Sample.cors
                  {| Http.status := 403;
                     Http.body := Http.Failure "FORBIDDEN" "Admin access required" None;
                     Http.headers := [] |} None), w).
Proof.
  cbv zeta.
  apply (invalidation_requires_admin_key Sample.decode Sample.finding Sample.finding
           Sample.cors Sample.env 6 5
           {| Http.method := "DELETE"; Http.pathname := "/cache/define/word";
              Http.authorization := Some "Bearer user-key"; Http.origin := None |}).
  - reflexivity.
  - reflexivity.
  - reflexivity.
Defined.

Lemma only_lookups_consume_quota_witness :
  Runtime.RATE_LIMITER
    (snd (Endpoint.handleRequest Sample.decode Sample.finding Sample.finding Sample.cors
            Sample.env 6 5 (Sample.get "/rate-limit/status") (Sample.world ∅ 7 1000))) =
  Runtime.RATE_LIMITER (Sample.world ∅ 7 1000).
Proof.
  apply (only_lookups_consume_quota Sample.decode Sample.finding Sample.finding
           Sample.cors Sample.env 6 5 (Sample.get "/rate-limit/status")
           (Sample.world ∅ 7 1000)).
  - reflexivity.
  - reflexivity.
Defined.

Lemma status_endpoint_reads_only_witness :
  snd (Endpoint.handleRequest Sample.decode Sample.finding Sample.finding Sample.cors
         Sample.env 6 5 (Sample.get "/rate-limit/status") (Sample.world ∅ 1000 1000)) =
    {| Runtime.CACHE := ∅;
       Runtime.RATE_LIMITER := Runtime.RATE_LIMITER (Sample.world ∅ 1000 1000);
       Runtime.subrequests := ["/status"] |}.
Proof.
  rewrite (status_endpoint_reads_only Sample.decode Sample.finding Sample.finding
             Sample.cors Sample.env 6 5 (Sample.get "/rate-limit/status")
             (Sample.world ∅ 1000 1000)).
  - reflexivity.
  - discriminate.
  - reflexivity.
  - reflexivity.
Defined.

Lemma undecodable_word_is_internal_error_witness :
  let malformed (s : string) : Errors.Result string :=
    Errors.Throw (Errors.Other "URIError") in
  Endpoint.handleRequest malformed Sample.finding Sample.finding Sample.cors
    Sample.env 6 5 (Sample.get "/define/%E0%A4%A") (Sample.world ∅ 7 1000) =
    (Errors.Ok (Endpoint.withCors Sample.cors
                  {| Http.status := 500;
                     Http.body := Http.Failure "INTERNAL_ERROR"
                                    "An unexpected error occurred" None;
                     Http.headers := [] |} None),
     Sample.world ∅ 7 1000).
Proof.
  cbv zeta.
  apply (undecodable_word_is_internal_error
           (fun _ => Errors.Throw (Errors.Other "URIError"))
           Sample.finding Sample.finding Sample.cors Sample.env 6 5 Cache.define
           (Sample.get "/define/%E0%A4%A") (Errors.Other "URIError")).
  - discriminate.
  - reflexivity.
  - reflexivity.
  - reflexivity.
Defined.

(** ** Credentials *)

Section Credentials.

Import Http Endpoint Auth.

Lemma extractBearerToken_Some (request : Request) (token : string) :
  extractBearerToken request = Some token <->
  authorization request = Some (String.append "Bearer " token).
Proof.
  unfold extractBearerToken. split.
  - destruct (authorization request) as [auth|]; [|discriminate].
    destruct (Js.startsWith auth "Bearer ") eqn:Hstarts; [|discriminate].
    intros [= <-]. f_equal. now apply (startsWith_split auth "Bearer ").
  - intros ->.
    rewrite startsWith_append.
    change 7%nat with (String.length "Bearer "). now rewrite slice_append.
Qed.

(** X23. The credential checks accept exactly the header
    [Authorization: Bearer <key>]: [validateUserAuth] holds if and only if
    the header is ["Bearer "] followed by the user key, [validateAdminAuth]
    likewise with the admin key, and [validateAuth] reports [admin] exactly
    when the admin check holds, [user] exactly when only the user check
    holds, and invalid otherwise. *)
Theorem credentials_are_exact_bearer_keys (env : Env) (request : Request) :
  (validateUserAuth env request = true <->
   authorization request = Some (String.append "Bearer " (WORKER_API_KEY env)))
  /\ (validateAdminAuth env request = true <->
      authorization request = Some (String.append "Bearer " (ADMIN_API_KEY env)))
  /\ (validateAuth env request = Valid admin <-> validateAdminAuth env request = true)
  /\ (validateAuth env request = Valid user <->
      validateUserAuth env request = true /\ validateAdminAuth env request = false)
  /\ (validateAuth env request = Invalid <->
      validateUserAuth env request = false /\ validateAdminAuth env request = false).
Proof.
  assert (Hkey : forall key,
            match extractBearerToken request with
            | Some token => String.eqb token key
            | None => false
            end = true <->
            authorization request = Some (String.append "Bearer " key)).
  { intros key. rewrite <- extractBearerToken_Some.
    destruct (extractBearerToken request) as [token|]; [|split; discriminate].
    rewrite String.eqb_eq. split; congruence. }
  split; [apply Hkey|]. split; [apply Hkey|].
  unfold validateAuth, validateUserAuth, validateAdminAuth.
  destruct (extractBearerToken request) as [token|];
    [|repeat split; try discriminate; intros []; discriminate].
  destruct (String.eqb token (ADMIN_API_KEY env)),
           (String.eqb token (WORKER_API_KEY env));
    repeat split; try discriminate; try reflexivity; intros []; discriminate.
Qed.

End Credentials.

(** ** The CORS headers *)

Section CorsHeaders.

Import Http Cors.

Lemma split_nonempty (sep : ascii) (s : string) : split sep s <> [].
Proof.
  induction s as [|c r IH]; simpl; [discriminate|].
  destruct (Ascii.eqb c sep); [discriminate|].
  now destruct (split sep r).
Qed.

Lemma existsb_eqb_In (o : string) (l : list string) :
  List.existsb (String.eqb o) l = true <-> In o l.
Proof.
  rewrite existsb_exists. split.
  - intros (x & Hin & Heq). apply String.eqb_eq in Heq. now subst.
  - intros Hin. exists o. split; [exact Hin | apply String.eqb_refl].
Qed.

Lemma hd_listed (a : string) : In (List.hd EmptyString (listedOrigins a)) (listedOrigins a).
Proof.
  unfold listedOrigins. pose proof (split_nonempty "," a) as Hne.
  destruct (split "," a); [contradiction | now left].
Qed.

(** X24. The [Access-Control-Allow-Origin] value is ["*"] or one of the
    configured origins.  It is ["*"] when no list is configured, the list is
    empty or ["*"], or the request has no origin; otherwise it echoes the
    request's origin exactly when that origin is in the configured list
    (entries trimmed), and is the first configured origin when it is
    not. *)
Theorem allowOrigin_policy (allowed origin : option string) :
  (allowOrigin allowed origin = "*"
   \/ exists a, allowed = Some a /\ In (allowOrigin allowed origin) (listedOrigins a))
  /\ (allowed = None \/ allowed = Some "" \/ allowed = Some "*"
      \/ origin = None \/ origin = Some "" ->
      allowOrigin allowed origin = "*")
  /\ (forall a o,
        allowed = Some a -> a <> "" -> a <> "*" -> origin = Some o -> o <> "" ->
        (In o (listedOrigins a) -> allowOrigin allowed origin = o)
        /\ (~ In o (listedOrigins a) ->
            allowOrigin allowed origin = List.hd EmptyString (listedOrigins a)
            /\ allowOrigin allowed origin <> o)).
Proof.
  split; [|split].
  - unfold allowOrigin. destruct origin as [o|]; [|now left].
    destruct allowed as [a|]; [|now left].
    destruct (String.eqb_spec a "") as [->|Ha]; [now left|].
    destruct (String.eqb a "*" ); [now left|]. cbn [negb andb].
    destruct (String.eqb o ""); [now left|]. cbn [negb].
    right. exists a. split; [reflexivity|].
    destruct (List.existsb (String.eqb o) (listedOrigins a)) eqn:Hin.
    + now apply existsb_eqb_In.
    + apply hd_listed.
  - intros H. unfold allowOrigin.
    destruct origin as [o|]; [|reflexivity].
    destruct allowed as [a|]; [|reflexivity].
    destruct (String.eqb_spec a "") as [->|Ha]; [reflexivity|].
    destruct (String.eqb_spec a "*") as [->|Hstar]; [reflexivity|]. cbn [negb andb].
    destruct (String.eqb_spec o "") as [->|Ho]; [reflexivity|].
    exfalso. destruct H as [H|[H|[H|[H|H]]]]; congruence.
  - intros a o -> Ha Hstar -> Ho. unfold allowOrigin.
    destruct (String.eqb_spec a ""); [contradiction|].
    destruct (String.eqb_spec a "*"); [contradiction|].
    destruct (String.eqb_spec o ""); [contradiction|]. cbn [negb andb].
    destruct (List.existsb (String.eqb o) (listedOrigins a)) eqn:Hin.
    + split; [reflexivity|]. intros Hnot. apply existsb_eqb_In in Hin. contradiction.
    + split.
      * intros Hlisted. apply existsb_eqb_In in Hlisted. congruence.
      * intros Hnot. split; [reflexivity|].
        intros Heq. apply Hnot. rewrite <- Heq. apply hd_listed.
Qed.

Lemma allowOrigin_policy_witness :
  allowOrigin (Some "https://a.example, https://b.example") (Some "https://b.example")
    = "https://b.example"
  /\ allowOrigin (Some "https://a.example, https://b.example") (Some "https://evil.example")
       = "https://a.example".
Proof.
  split.
  - apply (proj2 (proj2 (allowOrigin_policy
                           (Some "https://a.example, https://b.example")
                           (Some "https://b.example")))
             "https://a.example, https://b.example" "https://b.example");
      try reflexivity; try discriminate.
    vm_compute. tauto.
  - eapply eq_trans.
    + apply (proj2 (proj2 (allowOrigin_policy
                             (Some "https://a.example, https://b.example")
                             (Some "https://evil.example")))
               "https://a.example, https://b.example" "https://evil.example");
        try reflexivity; try discriminate.
      vm_compute. intros [H|[H|[]]]; discriminate H.
    + reflexivity.
Defined.

Lemma sameName_sym (a b : string) : sameName a b = sameName b a.
Proof. unfold sameName. apply String.eqb_sym. Qed.

Lemma sameName_trans (a b c : string) :
  sameName a b = true -> sameName b c = true -> sameName a c = true.
Proof.
  unfold sameName. rewrite !String.eqb_eq. congruence.
Qed.

Lemma filter_filter_implied {A} (p q : A -> bool) (l : list A) :
  (forall x, p x = true -> q x = true) ->
  List.filter p (List.filter q l) = List.filter p l.
Proof.
  intros Himp. induction l as [|x l IH]; [reflexivity|].
  cbn [List.filter].
  destruct (q x) eqn:Hq; cbn [List.filter].
  - now rewrite IH.
  - destruct (p x) eqn:Hp; [|exact IH].
    rewrite (Himp x Hp) in Hq. discriminate Hq.
Qed.

Lemma filter_filter_excluded {A} (p q : A -> bool) (l : list A) :
  (forall x, q x = true -> p x = false) ->
  List.filter p (List.filter q l) = [].
Proof.
  intros Hexcl. induction l as [|x l IH]; [reflexivity|].
  cbn [List.filter].
  destruct (q x) eqn:Hq; [|exact IH].
  cbn [List.filter]. now rewrite (Hexcl x Hq).
Qed.

(** Reading a header after [set]: the value just set under that name,
    whatever the case of the two names, and what was there under every
    other name. *)
Lemma getHeader_setHeader (name : string) (h : string * string)
    (hs : list (string * string)) :
  getHeader name (setHeader h hs) =
    if sameName (fst h) name then Some (snd h) else getHeader name hs.
Proof.
  unfold getHeader, setHeader. rewrite List.filter_app. cbn [List.filter].
  destruct (sameName (fst h) name) eqn:Hname.
  - rewrite filter_filter_excluded; [reflexivity|].
    intros x Hx. apply negb_true_iff in Hx.
    destruct (sameName (fst x) name) eqn:Hxn; [|reflexivity].
    rewrite sameName_sym in Hname.
    now rewrite (sameName_trans _ _ _ Hxn Hname) in Hx.
  - rewrite app_nil_r, filter_filter_implied; [reflexivity|].
    intros x Hx. apply negb_true_iff.
    destruct (sameName (fst x) (fst h)) eqn:Hxh; [|reflexivity].
    rewrite sameName_sym in Hxh.
    now rewrite (sameName_trans _ _ _ Hxh Hx) in Hname.
Qed.

Lemma sameName_other (name known other : string) :
  sameName name known = true ->
  sameName other known = false ->
  sameName other name = false.
Proof.
  unfold sameName. rewrite String.eqb_eq. now intros ->.
Qed.

(** X25. Adding the CORS headers keeps the status and the body of a
    response, sets each of the four CORS headers to the value of
    [corsHeaders], replacing whatever the response held under that name in
    any letter case, and leaves every header with another name as it was;
    header names are matched without regard to the case of their
    letters. *)
Theorem withCors_sets_cors_headers (allowed origin : option string)
    (response : Response) :
  let result := Endpoint.withCors (corsHeaders allowed) response origin in
  status result = status response
  /\ body result = body response
  /\ (forall name,
        sameName name "Access-Control-Allow-Origin" = true ->
        getHeader name (headers result) = Some (allowOrigin allowed origin))
  /\ (forall name,
        sameName name "Access-Control-Allow-Methods" = true ->
        getHeader name (headers result) = Some "GET, DELETE, OPTIONS")
  /\ (forall name,
        sameName name "Access-Control-Allow-Headers" = true ->
        getHeader name (headers result) = Some "Content-Type, Authorization")
  /\ (forall name,
        sameName name "Access-Control-Max-Age" = true ->
        getHeader name (headers result) = Some "86400")
  /\ (forall name,
        sameName name "Access-Control-Allow-Origin" = false ->
        sameName name "Access-Control-Allow-Methods" = false ->
        sameName name "Access-Control-Allow-Headers" = false ->
        sameName name "Access-Control-Max-Age" = false ->
        getHeader name (headers result) = getHeader name (headers response)).
Proof.
  cbv zeta. unfold Endpoint.withCors, corsHeaders.
  cbn [status body headers List.fold_left].
  split; [reflexivity|]. split; [reflexivity|].
  repeat split; intros name; rewrite !getHeader_setHeader; cbn [fst snd].
  - intros Hname.
    rewrite (sameName_other name _ "Access-Control-Max-Age" Hname eq_refl),
            (sameName_other name _ "Access-Control-Allow-Headers" Hname eq_refl),
            (sameName_other name _ "Access-Control-Allow-Methods" Hname eq_refl).
    rewrite sameName_sym in Hname. now rewrite Hname.
  - intros Hname.
    rewrite (sameName_other name _ "Access-Control-Max-Age" Hname eq_refl),
            (sameName_other name _ "Access-Control-Allow-Headers" Hname eq_refl).
    rewrite sameName_sym in Hname. now rewrite Hname.
  - intros Hname.
    rewrite (sameName_other name _ "Access-Control-Max-Age" Hname eq_refl).
    rewrite sameName_sym in Hname. now rewrite Hname.
  - intros Hname. rewrite sameName_sym in Hname. now rewrite Hname.
  - intros Horigin Hmethods Hheaders Hage.
    rewrite sameName_sym in Horigin, Hmethods, Hheaders, Hage.
    now rewrite Horigin, Hmethods, Hheaders, Hage.
Qed.

Lemma withCors_sets_cors_headers_witness :
  let response :=
    {| status := 200; body := NoBody;
       headers := [ ("access-control-allow-origin", "https://evil.example");
                    ("X-Cache", "HIT") ] |} in
  getHeader "Access-Control-Allow-Origin"
    (headers (Endpoint.withCors (corsHeaders None) response None)) = Some "*"
  /\ getHeader "x-cache" (headers (Endpoint.withCors (corsHeaders None) response None)) =
       Some "HIT".
Proof.
  cbv zeta.
  destruct (withCors_sets_cors_headers None None
              {| status := 200; body := NoBody;
                 headers := [ ("access-control-allow-origin", "https://evil.example");
                              ("X-Cache", "HIT") ] |})
    as (_ & _ & Horigin & _ & _ & _ & Hother).
  split.
  - apply Horigin. reflexivity.
  - rewrite Hother; reflexivity.
Defined.

End CorsHeaders.

(** ** The upstream client: failures and the found flag *)

Section UpstreamClient.

Import Errors Client.



(** X27. The upstream call of [handleDefine], made with the key of the
    handler and no options: with a key configured it returns a result or
    throws a [MerriamWebsterError], which [handleMWError] turns into the
    upstream-error envelope (503 exactly when the upstream status was 403);
    with the key missing it throws a plain error before any request, which
    [handleMWError] throws again. *)
Theorem upstream_call_failures (key : option string) (outcome : FetchOutcome)
    (rateLimit : Types.RateLimitStatus) (w : Runtime.World) :
  (missing key = false ->
   (exists result, defineWith key outcome = Ok result)
   \/ exists e,
        defineWith key outcome = Throw (MW e)
        /\ fst (Endpoint.handleMWError (MW e) rateLimit w) =
             Ok (Notions.upstreamErrorResponse e rateLimit)
        /\ (Http.status (Notions.upstreamErrorResponse e rateLimit) = 503 <->
            exists statusText body, outcome = Responded 403 statusText body))
  /\ (missing key = true ->
      exists description,
        defineWith key outcome = Throw (Other description)
        /\ fst (Endpoint.handleMWError (Other description) rateLimit w) =
             Throw (Other description)).
Proof.
  unfold defineWith, create, define. cbn [missing andb].
  split; intros Hkey; rewrite Hkey; cbn [andb dictionaryKey]; rewrite ?Hkey;
    [|eexists; split; reflexivity].
  unfold request, attempt, recover. cbn [negb].
  assert (Hclass : forall e,
            fst (Endpoint.handleMWError (MW e) rateLimit w) =
              Ok (Notions.upstreamErrorResponse e rateLimit)).
  { intros e. unfold Endpoint.handleMWError, Runtime.ret, Notions.upstreamErrorResponse.
    now destruct e. }
  destruct outcome as [status statusText body|reason].
  - destruct (Z.eqb_spec status 403) as [->|Hne].
    { right. eexists. split; [reflexivity|]. split; [apply Hclass|].
      split; [intros _; now exists statusText, body | reflexivity]. }
    destruct (negb (ok status)).
    { right. eexists. split; [reflexivity|]. split; [apply Hclass|].
      cbn. split; [discriminate | intros (? & ? & [=]); contradiction]. }
    destruct body as [data|reason]; [left; eexists; reflexivity|].
    right.
    destruct (isError reason && String.eqb (raisedName reason) "AbortError");
      [|destruct (isError reason)];
      (eexists; split; [reflexivity|]; split; [apply Hclass|];
       cbn; split; [discriminate | intros (? & ? & [=]); contradiction]).
  - right.
    destruct (isError reason && String.eqb (raisedName reason) "AbortError");
      [|destruct (isError reason)];
      (eexists; split; [reflexivity|]; split; [apply Hclass|];
       cbn; split; [discriminate | intros (? & ? & [=])]).
Qed.

Lemma upstream_call_failures_witness :
  exists description,
    defineWith (Some "")
      (Responded 200 "OK" (Parsed (JArray []))) = Throw (Other description).
Proof.
  destruct (proj2 (upstream_call_failures (Some "")
                     (Responded 200 "OK" (Parsed (JArray [])))
                     {| Types.allowed := true; Types.remaining := 1;
                        Types.limit := 2; Types.resetsAt := 86400000 |}
                     (Sample.world ∅ 1 2)) eq_refl) as (description & H & _).
  exists description. exact H.
Defined.

(** X28. The response guards never both hold: a response recognised as
    entries (a non-empty array whose first element is an object with a
    [meta] member) is not recognised as suggestions, the dictionary and the
    thesaurus guard agree on every response, and the empty array counts as
    suggestions.  A lookup marks its result found exactly when the guard
    holds for the response, which it hands on unchanged either way. *)
Theorem guards_exclusive (response : Json) :
  isDictionaryEntries response = isThesaurusEntries response
  /\ (isDictionaryEntries response = true -> isSuggestions response = false)
  /\ isSuggestions (JArray []) = true
  /\ (forall self options status statusText,
        missing (dictionaryKey self) = false ->
        200 <= status <= 299 ->
        define self options (Responded status statusText (Parsed response)) =
          Ok (if isDictionaryEntries response then FoundResult response
              else NotFoundResult response)).
Proof.
  split; [reflexivity|]. split; [|split; [reflexivity|]].
  - destruct response as [| | | |[|first rest]|]; try discriminate.
    destruct first; try discriminate. reflexivity.
  - intros self options status statusText Hkey Hok.
    unfold define, request, attempt, ok. rewrite Hkey.
    destruct (Z.eqb_spec status 403); [lia|].
    destruct (Z.leb_spec 200 status); [|lia].
    destruct (Z.leb_spec status 299); [|lia]. reflexivity.
Qed.

Lemma guards_exclusive_witness :
  isSuggestions (JArray [JObject [("meta", JObject [("id", JString "test:1")])]]) = false.
Proof.
  apply (guards_exclusive
           (JArray [JObject [("meta", JObject [("id", JString "test:1")])]])).
  reflexivity.
Defined.

End UpstreamClient.
